(** * Binary-operation dispatch of the processing layer

    A shallow embedding of
    [cpp/arcticdb/processing/operation_dispatch_binary.hpp]:
    the membership, comparator and arithmetic kernels and their
    [visit_*] dispatch wrappers, with the results that the specification
    states about empty-typed operands, row counts, sparse columns and
    result shapes.

    Exceptions are modelled by a [Result] monad; the bit-vector, the
    column container, the operator functors, the string pool and the
    promotion table are collaborators declared in other headers: they
    are modelled from the specification or taken as an interface
    ([Externals]). *)

From Stdlib Require Import ZArith.
From stdpp Require Import base option list gmap strings.

Local Open Scope Z_scope.

(** ** Element types *)

(** Modelled from the spec: [entity/types.hpp] is not among the sources.
    The element types of the glossary: integers by width and signedness,
    floats by width, bool, fixed- and variable-width strings, and the
    empty placeholder. *)
Inductive DataType : Type :=
  | UINT8 | UINT16 | UINT32 | UINT64
  | INT8 | INT16 | INT32 | INT64
  | FLOAT32 | FLOAT64
  | BOOL8
  | ASCII_FIXED64 | ASCII_DYNAMIC64 | UTF_FIXED64 | UTF_DYNAMIC64
  | EMPTYVAL.

Definition is_empty_type (dt : DataType) : bool :=
  match dt with EMPTYVAL => true | _ => false end.

Definition is_bool_type (dt : DataType) : bool :=
  match dt with BOOL8 => true | _ => false end.

Definition is_fixed_string_type (dt : DataType) : bool :=
  match dt with ASCII_FIXED64 | UTF_FIXED64 => true | _ => false end.

Definition is_sequence_type (dt : DataType) : bool :=
  match dt with
  | ASCII_FIXED64 | ASCII_DYNAMIC64 | UTF_FIXED64 | UTF_DYNAMIC64 => true
  | _ => false
  end.

Definition is_numeric_type (dt : DataType) : bool :=
  match dt with
  | UINT8 | UINT16 | UINT32 | UINT64
  | INT8 | INT16 | INT32 | INT64
  | FLOAT32 | FLOAT64 => true
  | _ => false
  end.

(** ** Operator functors *)

Inductive ArithmeticOperator : Type :=
  PlusOperator | MinusOperator | TimesOperator | DivideOperator.

Inductive ComparisonOperator : Type :=
  | EqualsOperator | NotEqualsOperator
  | LessThanOperator | LessThanEqualsOperator
  | GreaterThanOperator | GreaterThanEqualsOperator.

(** The membership kernel is instantiated at these two functors; its
    third [if constexpr] branch (any other functor type) raises
    E_ASSERTION_FAILURE and has no instance in this enumeration. *)
Inductive MembershipOperator : Type := IsInOperator | IsNotInOperator.

(** The functor argument of [type_arithmetic_promoted_type]. *)
Inductive Func : Type :=
  | Arithmetic (f : ArithmeticOperator)
  | Membership (f : MembershipOperator).

(** ** Errors *)

(** One constructor per raising helper the header calls; the payload is
    the format string at the call site. *)
Inductive Error : Type :=
  | internal_raise_E_ASSERTION_FAILURE (msg : string)
  | util_check (msg : string)
  | schema_check_E_UNSUPPORTED_COLUMN_TYPE (msg : string)
  | util_raise_rte (msg : string).

Inductive Result (A : Type) : Type :=
  | Ok (a : A)
  | Err (e : Error).
Arguments Ok {A} a.
Arguments Err {A} e.

#[global] Instance Result_ret : MRet Result := fun A a => Ok a.
#[global] Instance Result_bind : MBind Result := fun A B k m =>
  match m with
  | Ok a => k a
  | Err e => Err e
  end.

Definition is_Err {A : Type} (m : Result A) : bool :=
  match m with Err _ => true | Ok _ => false end.

(** ** util::BitSet *)

(** Modelled from the spec: [util::BitSet] (a BitMagic bit-vector) is not
    among the sources. A mask is a dense bit-vector, one bit per logical
    row. [optimized] records that the compaction pass ran after the last
    write: [optimize] changes no bit and no size, only the storage. *)
Module BitSet.

Record t : Type := mk { bits : list bool; optimized : bool }.

(** [util::BitSet b(n)]: [n] bits, all clear. *)
Definition make (n : nat) : t := mk (replicate n false) false.

Definition size (b : t) : nat := length (bits b).

(** [b.test(n)]; a position past the end reads as clear. *)
Definition test (b : t) (n : nat) : bool := default false (bits b !! n).

(** [b.set()]: every bit set. *)
Definition set_all (b : t) : t := mk (replicate (size b) true) false.

(** [b.set(n, v)]; writing past the end grows the vector to [n + 1]. *)
Definition set (b : t) (n : nat) (v : bool) : t :=
  mk (if decide (n < size b)%nat
      then <[n := v]> (bits b)
      else bits b ++ replicate (n - size b) false ++ [v])
     false.

(** [b.optimize()]. *)
Definition optimize (b : t) : t := mk (bits b) true.

(** [b.count()]. *)
Definition count (b : t) : nat := length (filter (fun x => x = true) (bits b)).

(** The set positions in increasing order, as the enumerator from
    [b.first()] to [b.end()] yields them. *)
Fixpoint positions_from (k : nat) (l : list bool) : list nat :=
  match l with
  | [] => []
  | x :: l' => if x then k :: positions_from (S k) l' else positions_from (S k) l'
  end.

Definition positions (b : t) : list nat := positions_from 0 (bits b).

End BitSet.

(** ** Columns, scalars and scalar sets *)

(** Modelled from the spec: [column_store/column.hpp] is not among the
    sources. A typed column is logically a fixed-length (row-count)
    sequence of raw values of one element type, optionally sparse: a
    companion bitmap records which logical rows hold a stored value.
    [data] holds the stored values in row order (string columns store
    pool offsets), as raw 64-bit storage read as an integer. *)
Module Column.

Record t : Type := mk {
  type : DataType;
  row_count : nat;
  data : list Z;
  opt_sparse_map : option BitSet.t
}.

(** Writes [rs], the per-row results, into [out] from bit [k] on; a
    bit is written where the row's result is true. *)
Fixpoint write_from (k : nat) (rs : list bool) (out : BitSet.t) : BitSet.t :=
  match rs with
  | [] => out
  | r :: rs' => write_from (S k) rs' (if r then BitSet.set out k true else out)
  end.

(** Modelled from the spec: [Column::transform<TDT>(input,
    output_bitset, f)], the primitive that applies a per-row function
    across the stored values of one column into a mask. *)
Definition transform (input : t) (output_bitset : BitSet.t) (f : Z -> bool) : BitSet.t :=
  write_from 0 (map f (data input)) output_bitset.

(** Modelled from the spec: [Column::transform<L, R>(left, right,
    output_bitset, f)], the same over the stored values of two
    columns. *)
Definition transform2 (left right : t) (output_bitset : BitSet.t)
    (f : Z -> Z -> bool) : BitSet.t :=
  write_from 0 (zip_with f (data left) (data right)) output_bitset.

(** Modelled from the spec: [Column::transform<In, Out>(input,
    output_column, f)], the per-row function into an output column. *)
Definition transform_column (input output_column : t) (f : Z -> Z) : t :=
  mk (type output_column) (row_count output_column) (map f (data input))
     (opt_sparse_map output_column).

(** Modelled from the spec: [Column::transform<L, R, Out>(left, right,
    output_column, f)]. *)
Definition transform2_column (left right output_column : t) (f : Z -> Z -> Z) : t :=
  mk (type output_column) (row_count output_column)
     (zip_with f (data left) (data right)) (opt_sparse_map output_column).

(** Modelled from the spec: [Column(make_scalar_type(dt), rows, true,
    false)] followed by [set_row_data], a freshly allocated dense column
    of [rows] rows. *)
Definition make (dt : DataType) (rows : nat) : t := mk dt rows [] None.

(** The stored values fit the declared rows; a dense column stores
    every row, a sparse one stores one value per set bit of a bitmap
    that spans the rows. *)
Definition well_formed (c : t) : Prop :=
  match opt_sparse_map c with
  | None => length (data c) = row_count c
  | Some m => BitSet.size m = row_count c /\ length (data c) = BitSet.count m
  end.

End Column.

(** Modelled from the spec: [pipeline/value.hpp] is not among the
    sources. A scalar is a single typed value: its element type, its raw
    numeric storage and, for strings, its characters. *)
Record Value : Type := mkValue {
  data_type_ : DataType;
  data_ : Z;
  str_data : string
}.

(** Modelled from the spec: [pipeline/value_set.hpp] is not among the
    sources. An immutable set of scalars of a single declared type. *)
Record ValueSet : Type := mkValueSet {
  base_type : DataType;
  numeric_values : gset Z;
  string_values : gset string
}.

Definition ValueSet_empty (s : ValueSet) : bool :=
  bool_decide (numeric_values s = empty /\ string_values s = empty).

(** Modelled from the spec: the string pool is a shared dictionary from
    integer offsets to string content. *)
Definition StringPool : Type := gmap Z string.

(** A column with the pool its offsets refer to; a column built by the
    arithmetic kernel carries none. *)
Record ColumnWithStrings : Type := mkColumnWithStrings {
  column_ : Column.t;
  string_pool_ : option StringPool
}.

(** Modelled from the spec: [VariantData] of [operation_dispatch.hpp],
    the closed set of result shapes: column, scalar, scalar set, mask
    and the two sentinels. *)
Inductive VariantData : Type :=
  | VFullResult
  | VBitSet (b : BitSet.t)
  | VColumnWithStrings (c : ColumnWithStrings)
  | VValue (v : Value)
  | VValueSet (s : ValueSet)
  | VEmptyResult.

(** [std::holds_alternative<EmptyResult>]. *)
Definition holds_EmptyResult (v : VariantData) : bool :=
  match v with VEmptyResult => true | _ => false end.

(** ** Collaborators *)

(** What the kernels consume from other headers: the promotion table
    and the operator functors ([operation_types.hpp]), the comparison types ([type_utils.hpp]),
    the scalar-set accessors, the string pool and
    [transform_to_placeholder] ([operation_dispatch.hpp]). Raw values
    travel as integers tagged by the element type they are read at. *)
Class Externals : Type := {
  (** [type_arithmetic_promoted_type<L, R, Func>::type] *)
  type_arithmetic_promoted_type : DataType -> DataType -> Func -> DataType;
  (** [func.apply(l, r)] at raw types [L] and [R] *)
  func_apply : ArithmeticOperator -> DataType -> DataType -> Z -> Z -> Z;
  (** [Comparable<L, R>::left_type] and [::right_type] *)
  Comparable_left_type : DataType -> DataType -> DataType;
  Comparable_right_type : DataType -> DataType -> DataType;
  (** [static_cast<To>(v)] of a value read at type [From] *)
  static_cast : forall (To From : DataType), Z -> Z;
  (** [func(l, r)] of a comparison functor at two numeric types *)
  comparator_call : ComparisonOperator -> DataType -> DataType -> Z -> Z -> bool;
  (** [func(l, r)] on two optional string views *)
  comparator_call_strings : ComparisonOperator -> option string -> option string -> bool;
  (** [func(offset, value_offset)] and [func(value_offset, offset)] *)
  comparator_call_offset_value : ComparisonOperator -> Z -> option Z -> bool;
  comparator_call_value_offset : ComparisonOperator -> option Z -> Z -> bool;
  (** [func(v, set)] of a membership functor at the wide type *)
  membership_call : MembershipOperator -> DataType -> Z -> gset Z -> bool;
  (** [func(v, set, UInt64SpecialHandlingTag{})] *)
  membership_call_uint64 : MembershipOperator -> DataType -> DataType -> Z -> gset Z -> bool;
  (** [func(offset, offset_set)] *)
  membership_call_offsets : MembershipOperator -> Z -> gset Z -> bool;
  (** [MembershipOperator::needs_uint64_special_handling<L, R>] *)
  needs_uint64_special_handling : DataType -> DataType -> bool;
  (** [value_set.get_set<T>()] for a numeric [T] and for [std::string] *)
  get_set : ValueSet -> DataType -> gset Z;
  get_string_set : ValueSet -> gset string;
  get_fixed_width_string_set : ValueSet -> nat -> gset string;
  (** [string_pool_->get_offset_for_column(s, column)] *)
  get_offset_for_column : option StringPool -> string -> Column.t -> option Z;
  (** [string_pool_->get_offsets_for_column(set, column)]; the set
      pointer is null when no width is known *)
  get_offsets_for_column : option StringPool -> option (gset string) -> Column.t -> gset Z;
  (** [column_with_strings.string_at_offset(offset, strip)] *)
  string_at_offset : ColumnWithStrings -> Z -> bool -> option string;
  get_fixed_width_string_size : ColumnWithStrings -> option nat;
  ascii_to_padded_utf32 : string -> nat -> option string;
  transform_to_placeholder : VariantData -> VariantData
}.

(** ** The kernels *)

Section Kernels.

Context `{Externals}.

(** The loop over the sparse map at the end of [binary_membership]: the
    local bit-vector [replace] receives, at each stored position, the
    next bit of the dense result. *)
Definition sparse_replace (sparse_map output_bitset : BitSet.t) : BitSet.t :=
  fst (foldl (fun '(replace, pos) it =>
                (BitSet.set replace it (BitSet.test output_bitset pos), S pos))
             (BitSet.make (BitSet.size sparse_map), 0%nat)
             (BitSet.positions sparse_map)).

(** The per-type body of [binary_membership] for a non-empty scalar set:
    the two nested [visit_type] calls and the [if constexpr] chain. *)
Definition binary_membership_visit (column_with_strings : ColumnWithStrings)
    (value_set : ValueSet) (func : MembershipOperator) (output_bitset : BitSet.t)
    : Result BitSet.t :=
  let column := column_ column_with_strings in
  let col_type := Column.type column in
  let val_set_type := base_type value_set in
  if is_sequence_type col_type && is_sequence_type val_set_type then
    let typed_value_set :=
      if is_fixed_string_type col_type then
        match get_fixed_width_string_size column_with_strings with
        | Some width => Some (get_fixed_width_string_set value_set width)
        | None => None
        end
      else Some (get_string_set value_set) in
    let offset_set :=
      get_offsets_for_column (string_pool_ column_with_strings) typed_value_set column in
    Ok (Column.transform column output_bitset
          (fun input_value => membership_call_offsets func input_value offset_set))
  else if is_bool_type col_type && is_bool_type val_set_type then
    Err (util_raise_rte "Binary membership not implemented for bools")
  else if is_numeric_type col_type && is_numeric_type val_set_type then
    let WideType := type_arithmetic_promoted_type col_type val_set_type (Membership func) in
    let typed_value_set := get_set value_set WideType in
    Ok (Column.transform column output_bitset
          (fun input_value =>
             if needs_uint64_special_handling col_type val_set_type
             then membership_call_uint64 func col_type val_set_type input_value typed_value_set
             else membership_call func WideType
                    (static_cast WideType col_type input_value) typed_value_set))
  else
    Err (util_raise_rte "Cannot check membership of {} in set of {} (possible categorical?)").

Definition binary_membership (column_with_strings : ColumnWithStrings)
    (value_set : ValueSet) (func : MembershipOperator) : Result VariantData :=
  let column := column_ column_with_strings in
  if is_empty_type (Column.type column) then
    match func with
    | IsInOperator => Ok VEmptyResult
    | IsNotInOperator => Ok VFullResult
    end
  else
    let output_bitset := BitSet.make (Column.row_count column) in
    output_bitset ←
      (if ValueSet_empty value_set then
         Ok (match func with
             | IsNotInOperator => BitSet.set_all output_bitset
             | IsInOperator => output_bitset
             end)
       else binary_membership_visit column_with_strings value_set func output_bitset);
    let output_bitset := BitSet.optimize output_bitset in
    let replace :=
      match Column.opt_sparse_map column with
      | Some sparse_map => Some (sparse_replace sparse_map output_bitset)
      | None => None
      end in
    Ok (VBitSet output_bitset).

Definition visit_binary_membership (left right : VariantData)
    (func : MembershipOperator) : Result VariantData :=
  if holds_EmptyResult left then Ok VEmptyResult
  else
    match left, right with
    | VColumnWithStrings l, VValueSet r =>
        result ← binary_membership l r func;
        Ok (transform_to_placeholder result)
    | _, _ => Err (util_raise_rte "Binary membership operations must be Column/ValueSet")
    end.

(** [binary_comparator(const ColumnWithStrings&, const ColumnWithStrings&, Func&&)] *)
Definition binary_comparator_column_column (left right : ColumnWithStrings)
    (func : ComparisonOperator) : Result VariantData :=
  let lc := column_ left in
  let rc := column_ right in
  if is_empty_type (Column.type lc) || is_empty_type (Column.type rc) then
    Ok VEmptyResult
  else if negb (bool_decide (Column.row_count lc = Column.row_count rc)) then
    Err (util_check "Columns with different row counts ({} and {}) in binary comparator")
  else
    let output_bitset := BitSet.make (Column.row_count lc) in
    let left_type := Column.type lc in
    let right_type := Column.type rc in
    output_bitset ←
      (if is_sequence_type left_type && is_sequence_type right_type then
         let strip_fixed_width_trailing_nulls :=
           is_fixed_string_type left_type || is_fixed_string_type right_type in
         Ok (Column.transform2 lc rc output_bitset
               (fun left_value right_value =>
                  comparator_call_strings func
                    (string_at_offset left left_value strip_fixed_width_trailing_nulls)
                    (string_at_offset right right_value strip_fixed_width_trailing_nulls)))
       else if (is_numeric_type left_type && is_numeric_type right_type)
               || (is_bool_type left_type && is_bool_type right_type) then
         let comp_left := Comparable_left_type left_type right_type in
         let comp_right := Comparable_right_type left_type right_type in
         Ok (Column.transform2 lc rc output_bitset
               (fun left_value right_value =>
                  comparator_call func comp_left comp_right
                    (static_cast comp_left left_type left_value)
                    (static_cast comp_right right_type right_value)))
       else
         Err (util_raise_rte "Cannot compare {} to {} (possible categorical?)"));
    Ok (VBitSet output_bitset).

(** [binary_comparator<Func, arguments_reversed>(const ColumnWithStrings&,
    const Value&, Func&&)] *)
Definition binary_comparator_column_value (arguments_reversed : bool)
    (column_with_strings : ColumnWithStrings) (val : Value)
    (func : ComparisonOperator) : Result VariantData :=
  let column := column_ column_with_strings in
  if is_empty_type (Column.type column) then Ok VEmptyResult
  else
    let output_bitset := BitSet.make (Column.row_count column) in
    let col_type := Column.type column in
    let val_type := data_type_ val in
    output_bitset ←
      (if is_sequence_type col_type && is_sequence_type val_type then
         let value_string :=
           if is_fixed_string_type col_type then
             match get_fixed_width_string_size column_with_strings with
             | Some width =>
                 match ascii_to_padded_utf32 (str_data val) width with
                 | Some utf32_string => utf32_string
                 | None => ""
                 end
             | None => ""
             end
           else str_data val in
         let value_offset :=
           get_offset_for_column (string_pool_ column_with_strings) value_string column in
         Ok (Column.transform column output_bitset
               (fun offset =>
                  if arguments_reversed
                  then comparator_call_offset_value func offset value_offset
                  else comparator_call_value_offset func value_offset offset))
       else if (is_numeric_type col_type && is_numeric_type val_type)
               || (is_bool_type col_type && is_bool_type val_type) then
         let comp_left :=
           if arguments_reversed then Comparable_left_type col_type val_type
           else Comparable_left_type val_type col_type in
         let comp_right :=
           if arguments_reversed then Comparable_right_type col_type val_type
           else Comparable_right_type val_type col_type in
         let value := static_cast comp_left val_type (data_ val) in
         Ok (Column.transform column output_bitset
               (fun input_value =>
                  if arguments_reversed
                  then comparator_call func comp_left comp_right value
                         (static_cast comp_right col_type input_value)
                  else comparator_call func comp_right comp_left
                         (static_cast comp_right col_type input_value) value))
       else
         Err (util_raise_rte "Cannot compare {} to {} (possible categorical?)"));
    Ok (VBitSet output_bitset).

Definition visit_binary_comparator (left right : VariantData)
    (func : ComparisonOperator) : Result VariantData :=
  if holds_EmptyResult left || holds_EmptyResult right then Ok VEmptyResult
  else
    match left, right with
    | VColumnWithStrings l, VValue r =>
        result ← binary_comparator_column_value false l r func;
        Ok (transform_to_placeholder result)
    | VColumnWithStrings l, VColumnWithStrings r =>
        result ← binary_comparator_column_column l r func;
        Ok (transform_to_placeholder result)
    | VValue l, VColumnWithStrings r =>
        result ← binary_comparator_column_value true r l func;
        Ok (transform_to_placeholder result)
    | VValue _, VValue _ =>
        Err (util_raise_rte "Two value inputs not accepted to binary comparators")
    | _, _ =>
        Err (util_raise_rte "Bitset/ValueSet inputs not accepted to binary comparators")
    end.

(** [binary_operator(const Value&, const Value&, Func&&)] *)
Definition binary_operator_value_value (left right : Value)
    (func : ArithmeticOperator) : Result VariantData :=
  let left_type := data_type_ left in
  if negb (is_numeric_type left_type) then
    Err (util_raise_rte "Non-numeric type provided to binary operation: {}")
  else
    let left_value := data_ left in
    let right_type := data_type_ right in
    if negb (is_numeric_type right_type) then
      Err (util_raise_rte "Non-numeric type provided to binary operation: {}")
    else
      let right_value := data_ right in
      let TargetType := type_arithmetic_promoted_type left_type right_type (Arithmetic func) in
      Ok (VValue (mkValue TargetType
                    (func_apply func left_type right_type left_value right_value) "")).

(** [binary_operator(const Column&, const Column&, Func&&)] *)
Definition binary_operator_column_column (left right : Column.t)
    (func : ArithmeticOperator) : Result VariantData :=
  if negb (negb (is_empty_type (Column.type left)) && negb (is_empty_type (Column.type right)))
  then Err (schema_check_E_UNSUPPORTED_COLUMN_TYPE "Empty column provided to binary operator")
  else if negb (bool_decide (Column.row_count left = Column.row_count right)) then
    Err (util_check "Columns with different row counts ({} and {}) in binary operator")
  else
    let left_type := Column.type left in
    if negb (is_numeric_type left_type) then
      Err (util_raise_rte "Non-numeric type provided to binary operation: {}")
    else
      let right_type := Column.type right in
      if negb (is_numeric_type right_type) then
        Err (util_raise_rte "Non-numeric type provided to binary operation: {}")
      else
        let TargetType := type_arithmetic_promoted_type left_type right_type (Arithmetic func) in
        let output_column := Column.make TargetType (Column.row_count left) in
        let output_column :=
          Column.transform2_column left right output_column
            (fun left_value right_value =>
               func_apply func left_type right_type left_value right_value) in
        Ok (VColumnWithStrings (mkColumnWithStrings output_column None)).

(** [binary_operator<Func, arguments_reversed>(const Column&, const Value&, Func&&)] *)
Definition binary_operator_column_value (arguments_reversed : bool)
    (col : Column.t) (val : Value) (func : ArithmeticOperator) : Result VariantData :=
  if negb (negb (is_empty_type (Column.type col))) then
    Err (schema_check_E_UNSUPPORTED_COLUMN_TYPE "Empty column provided to binary operator")
  else
    let col_type := Column.type col in
    if negb (is_numeric_type col_type) then
      Err (util_raise_rte "Non-numeric type provided to binary operation: {}")
    else
      let val_type := data_type_ val in
      if negb (is_numeric_type val_type) then
        Err (util_raise_rte "Non-numeric type provided to binary operation: {}")
      else
        let raw_value := data_ val in
        let TargetType := type_arithmetic_promoted_type col_type val_type (Arithmetic func) in
        let ReversedTargetType :=
          type_arithmetic_promoted_type val_type col_type (Arithmetic func) in
        if arguments_reversed then
          let output_column := Column.make ReversedTargetType (Column.row_count col) in
          let output_column :=
            Column.transform_column col output_column
              (fun input_value => func_apply func val_type col_type raw_value input_value) in
          Ok (VColumnWithStrings (mkColumnWithStrings output_column None))
        else
          let output_column := Column.make TargetType (Column.row_count col) in
          let output_column :=
            Column.transform_column col output_column
              (fun input_value => func_apply func col_type val_type input_value raw_value) in
          Ok (VColumnWithStrings (mkColumnWithStrings output_column None)).

Definition visit_binary_operator (left right : VariantData)
    (func : ArithmeticOperator) : Result VariantData :=
  if holds_EmptyResult left || holds_EmptyResult right then Ok VEmptyResult
  else
    match left, right with
    | VColumnWithStrings l, VValue r =>
        binary_operator_column_value false (column_ l) r func
    | VColumnWithStrings l, VColumnWithStrings r =>
        binary_operator_column_column (column_ l) (column_ r) func
    | VValue l, VColumnWithStrings r =>
        binary_operator_column_value true (column_ r) l func
    | VValue l, VValue r =>
        binary_operator_value_value l r func
    | _, _ =>
        Err (util_raise_rte "Bitset/ValueSet inputs not accepted to binary operators")
    end.

End Kernels.

(** ** An instance of the collaborators *)

(** Signed 64-bit data: every operand pair is computed at INT64 (the
    quotient at FLOAT64), casts keep the value, comparison and
    membership are those of the integers, and a string's offset is
    looked up among the offsets the column stores. The concrete runs
    below use it on integer addition, comparison and membership; it has
    no floating point and orders neither strings nor offsets. *)
Module Int64.

Definition compare (func : ComparisonOperator) (l r : Z) : bool :=
  match func with
  | EqualsOperator => bool_decide (l = r)
  | NotEqualsOperator => negb (bool_decide (l = r))
  | LessThanOperator => bool_decide (l < r)
  | LessThanEqualsOperator => bool_decide (l <= r)
  | GreaterThanOperator => bool_decide (r < l)
  | GreaterThanEqualsOperator => bool_decide (r <= l)
  end.

Definition member (func : MembershipOperator) (v : Z) (s : gset Z) : bool :=
  match func with
  | IsInOperator => bool_decide (v ∈ s)
  | IsNotInOperator => negb (bool_decide (v ∈ s))
  end.

(** The signed 64-bit value that an integer result wraps to. *)
Definition wrap (z : Z) : Z :=
  (z + 9223372036854775808) mod 18446744073709551616 - 9223372036854775808.

(** Sums, differences and products wrap to 64 bits. The quotient is
    typed FLOAT64, which this instance cannot hold: it stands for it
    only where the division is exact, and no run below divides. *)
Definition apply (func : ArithmeticOperator) (l r : Z) : Z :=
  match func with
  | PlusOperator => wrap (l + r)
  | MinusOperator => wrap (l - r)
  | TimesOperator => wrap (l * r)
  | DivideOperator => l `quot` r
  end.

Definition pool_lookup (pool : option StringPool) (offset : Z) : option string :=
  match pool with
  | Some p => p !! offset
  | None => None
  end.

Definition offset_of (pool : option StringPool) (s : string) (column : Column.t) : option Z :=
  head (List.filter (fun offset => bool_decide (pool_lookup pool offset = Some s))
          (Column.data column)).

Definition offsets_of (pool : option StringPool) (set : option (gset string))
    (column : Column.t) : gset Z :=
  match set with
  | Some strings =>
      list_to_set
        (List.filter (fun offset =>
                        match pool_lookup pool offset with
                        | Some s => bool_decide (s ∈ strings)
                        | None => false
                        end) (Column.data column))
  | None => empty
  end.

Definition externals : Externals := {|
  type_arithmetic_promoted_type := fun _ _ func =>
    match func with Arithmetic DivideOperator => FLOAT64 | _ => INT64 end;
  func_apply := fun func _ _ => apply func;
  Comparable_left_type := fun l _ => l;
  Comparable_right_type := fun _ r => r;
  static_cast := fun _ _ v => v;
  comparator_call := fun func _ _ => compare func;
  comparator_call_strings := fun func l r =>
    match func with
    | EqualsOperator => bool_decide (l = r)
    | NotEqualsOperator => negb (bool_decide (l = r))
    | _ => false
    end;
  comparator_call_offset_value := fun func offset value_offset =>
    match func with
    | EqualsOperator => bool_decide (Some offset = value_offset)
    | NotEqualsOperator => negb (bool_decide (Some offset = value_offset))
    | _ => false
    end;
  comparator_call_value_offset := fun func value_offset offset =>
    match func with
    | EqualsOperator => bool_decide (value_offset = Some offset)
    | NotEqualsOperator => negb (bool_decide (value_offset = Some offset))
    | _ => false
    end;
  membership_call := fun func _ => member func;
  membership_call_uint64 := fun func _ _ => member func;
  membership_call_offsets := member;
  needs_uint64_special_handling := fun l r =>
    match l, r with
    | UINT64, (INT8 | INT16 | INT32 | INT64) => true
    | (INT8 | INT16 | INT32 | INT64), UINT64 => true
    | _, _ => false
    end;
  get_set := fun s _ => numeric_values s;
  get_string_set := string_values;
  get_fixed_width_string_set := fun s _ => string_values s;
  get_offset_for_column := offset_of;
  get_offsets_for_column := offsets_of;
  string_at_offset := fun c offset _ => pool_lookup (string_pool_ c) offset;
  get_fixed_width_string_size := fun _ => None;
  ascii_to_padded_utf32 := fun s _ => Some s;
  transform_to_placeholder := fun v => v
|}.

(** A dense INT64 column of the given values. *)
Definition dense (values : list Z) : ColumnWithStrings :=
  mkColumnWithStrings (Column.mk INT64 (length values) values None) None.

(** A sparse INT64 column of [rows] logical rows that stores [values] at
    the set bits of [sparse_map]. *)
Definition sparse (rows : nat) (sparse_map : list bool) (values : list Z) : ColumnWithStrings :=
  mkColumnWithStrings
    (Column.mk INT64 rows values (Some (BitSet.mk sparse_map false))) None.

(** A column that never received data. *)
Definition empty_column (rows : nat) : ColumnWithStrings :=
  mkColumnWithStrings (Column.mk EMPTYVAL rows [] None) None.

Definition scalar (v : Z) : Value := mkValue INT64 v "".

Definition set_of (values : list Z) : ValueSet := mkValueSet INT64 (list_to_set values) empty.

End Int64.

(** ** Concrete operands *)

(** Rows 1 and 3 of four hold the values 5 and 7. *)
Definition sparse_5_7 : ColumnWithStrings :=
  Int64.sparse 4 [false; true; false; true] [5; 7].

(** The string column of the values a, b, c, stored as pool offsets. *)
Definition column_abc : ColumnWithStrings :=
  mkColumnWithStrings (Column.mk UTF_DYNAMIC64 3 [0; 1; 2] None)
    (Some (list_to_map [(0, "a"%string); (1, "b"%string); (2, "c"%string)])).

Definition empty_string_set : ValueSet := mkValueSet UTF_DYNAMIC64 empty empty.


(** ** Statement vocabulary *)

(** The operand shapes the arithmetic and comparator kernels take. *)
Definition is_column_or_value (v : VariantData) : bool :=
  match v with
  | VColumnWithStrings _ | VValue _ => true
  | _ => false
  end.

(** The declared element type of a column or scalar operand. *)
Definition declared_type (v : VariantData) : option DataType :=
  match v with
  | VColumnWithStrings c => Some (Column.type (column_ c))
  | VValue x => Some (data_type_ x)
  | _ => None
  end.

(** The scatter-back rule for a sparse column: bit [p_k] of [mask] is
    bit [k] of the dense result, every other bit is clear. *)
Definition scattered (sparse_map dense mask : BitSet.t) : Prop :=
  (forall k p, BitSet.positions sparse_map !! k = Some p ->
               BitSet.test mask p = BitSet.test dense k)
  /\ (forall n, n ∉ BitSet.positions sparse_map -> BitSet.test mask n = false).

(** ** Row functions and masks *)

(** The mask of [rows] bits that holds [rs] in its leading bits and is
    clear after them. *)
Definition mask_of (rows : nat) (rs : list bool) (optimized : bool) : BitSet.t :=
  BitSet.mk (rs ++ replicate (rows - length rs) false) optimized.

(** The type pairs the comparator kernels accept. *)
Definition types_comparable (l r : DataType) : bool :=
  (is_sequence_type l && is_sequence_type r)
  || (is_numeric_type l && is_numeric_type r)
  || (is_bool_type l && is_bool_type r).

(** The type pairs the membership kernel accepts. *)
Definition types_testable (col_type val_set_type : DataType) : bool :=
  (is_sequence_type col_type && is_sequence_type val_set_type)
  || (is_numeric_type col_type && is_numeric_type val_set_type).

(** The pairing the membership wrapper accepts. *)
Definition is_column_and_value_set (left right : VariantData) : bool :=
  match left, right with
  | VColumnWithStrings _, VValueSet _ => true
  | _, _ => false
  end.

Section RowFunctions.

Context `{Externals}.

(** The lambda of the numeric branch of [binary_membership]. *)
Definition membership_numeric_row (func : MembershipOperator)
    (col_type val_set_type : DataType) (value_set : ValueSet) (input_value : Z) : bool :=
  let WideType := type_arithmetic_promoted_type col_type val_set_type (Membership func) in
  if needs_uint64_special_handling col_type val_set_type
  then membership_call_uint64 func col_type val_set_type input_value
         (get_set value_set WideType)
  else membership_call func WideType (static_cast WideType col_type input_value)
         (get_set value_set WideType).

(** The offset set of the string branch of [binary_membership]. *)
Definition membership_offset_set (c : ColumnWithStrings) (value_set : ValueSet) : gset Z :=
  get_offsets_for_column (string_pool_ c)
    (if is_fixed_string_type (Column.type (column_ c)) then
       match get_fixed_width_string_size c with
       | Some width => Some (get_fixed_width_string_set value_set width)
       | None => None
       end
     else Some (get_string_set value_set))
    (column_ c).

(** The lambda of the numeric branch of the Column/Column comparator. *)
Definition comparator_numeric_row (func : ComparisonOperator)
    (left_type right_type : DataType) (left_value right_value : Z) : bool :=
  comparator_call func (Comparable_left_type left_type right_type)
    (Comparable_right_type left_type right_type)
    (static_cast (Comparable_left_type left_type right_type) left_type left_value)
    (static_cast (Comparable_right_type left_type right_type) right_type right_value).

(** The lambda of the string branch of the Column/Column comparator. *)
Definition comparator_string_row (func : ComparisonOperator)
    (left right : ColumnWithStrings) (left_value right_value : Z) : bool :=
  let strip :=
    is_fixed_string_type (Column.type (column_ left))
    || is_fixed_string_type (Column.type (column_ right)) in
  comparator_call_strings func (string_at_offset left left_value strip)
    (string_at_offset right right_value strip).

(** The lambda of the numeric branch of the Column/Value comparator. *)
Definition comparator_value_row (arguments_reversed : bool) (func : ComparisonOperator)
    (col_type val_type : DataType) (raw_value input_value : Z) : bool :=
  if arguments_reversed then
    comparator_call func (Comparable_left_type col_type val_type)
      (Comparable_right_type col_type val_type)
      (static_cast (Comparable_left_type col_type val_type) val_type raw_value)
      (static_cast (Comparable_right_type col_type val_type) col_type input_value)
  else
    comparator_call func (Comparable_right_type val_type col_type)
      (Comparable_left_type val_type col_type)
      (static_cast (Comparable_right_type val_type col_type) col_type input_value)
      (static_cast (Comparable_left_type val_type col_type) val_type raw_value).

(** The lambda of the string branch of the Column/Value comparator,
    given the offset of the scalar's string. *)
Definition comparator_offset_row (arguments_reversed : bool) (func : ComparisonOperator)
    (value_offset : option Z) (offset : Z) : bool :=
  if arguments_reversed
  then comparator_call_offset_value func offset value_offset
  else comparator_call_value_offset func value_offset offset.

End RowFunctions.

(** ** More concrete operands *)

(** A dense BOOL8 column and a set of BOOL8 values. *)
Definition bool_column : ColumnWithStrings :=
  mkColumnWithStrings (Column.mk BOOL8 2 [1; 0] None) None.

Definition bool_set : ValueSet := mkValueSet BOOL8 (list_to_set [1]) empty.

(** A fixed-width string column whose width is not known. *)
Definition fixed_column : ColumnWithStrings :=
  mkColumnWithStrings (Column.mk UTF_FIXED64 2 [0; 1] None)
    (Some (list_to_map [(0, "ab"%string); (1, ""%string)])).

Definition string_scalar (s : string) : Value := mkValue UTF_DYNAMIC64 0 s.

Definition string_set_b : ValueSet :=
  mkValueSet UTF_DYNAMIC64 empty (list_to_set ["b"%string]).

(** An operand of the arithmetic wrapper whose column, if it is one, is
    dense and well formed. *)
Definition dense_operand (v : VariantData) : Prop :=
  match v with
  | VColumnWithStrings c =>
      Column.opt_sparse_map (column_ c) = None /\ Column.well_formed (column_ c)
  | VValue _ => True
  | _ => False
  end.

(** * Properties *)

(** ** The bit-vector and the transform *)

Lemma BitSet_test_set (b : BitSet.t) (n m : nat) (v : bool) :
  BitSet.test (BitSet.set b n v) m = if decide (n = m) then v else BitSet.test b m.
Proof.
  unfold BitSet.test, BitSet.set, BitSet.size; simpl.
  destruct (decide (n < length (BitSet.bits b))%nat) as [Hlt | Hge].
  - destruct (decide (n = m)) as [-> | Hne].
    + by rewrite list_lookup_insert_eq.
    + by rewrite list_lookup_insert_ne.
  - destruct (decide (m < length (BitSet.bits b))%nat) as [Hm | Hm].
    + rewrite lookup_app_l by done.
      destruct (decide (n = m)); [lia | done].
    + rewrite lookup_app_r by lia.
      rewrite (lookup_ge_None_2 (BitSet.bits b) m) by lia. simpl.
      set (d := (m - length (BitSet.bits b))%nat).
      set (g := (n - length (BitSet.bits b))%nat).
      destruct (decide (d < g)%nat) as [Hd | Hd].
      * rewrite lookup_app_l by (rewrite length_replicate; lia).
        rewrite lookup_replicate_2 by lia.
        destruct (decide (n = m)); [lia | done].
      * rewrite lookup_app_r by (rewrite length_replicate; lia).
        rewrite length_replicate.
        destruct (decide (n = m)) as [-> | Hne].
        -- replace (d - g)%nat with 0%nat by lia. done.
        -- destruct (d - g)%nat as [| j] eqn:E; [lia | done].
Qed.

Lemma BitSet_size_set_lt (b : BitSet.t) (n : nat) (v : bool) :
  (n < BitSet.size b)%nat -> BitSet.size (BitSet.set b n v) = BitSet.size b.
Proof.
  intros Hlt. unfold BitSet.set, BitSet.size in *; simpl.
  destruct (decide _); [by rewrite length_insert | lia].
Qed.

Lemma write_from_size (rs : list bool) :
  forall (k : nat) (out : BitSet.t),
    (k + length rs <= BitSet.size out)%nat ->
    BitSet.size (Column.write_from k rs out) = BitSet.size out.
Proof.
  induction rs as [| r rs IH]; intros k out Hle; simpl in *; [done |].
  destruct r.
  - rewrite IH; rewrite BitSet_size_set_lt; lia.
  - apply IH. lia.
Qed.

Lemma write_from_optimized (rs : list bool) :
  forall (k : nat) (out : BitSet.t),
    BitSet.optimized out = false ->
    BitSet.optimized (Column.write_from k rs out) = false.
Proof.
  induction rs as [| r rs IH]; intros k out Hout; simpl; [done |].
  destruct r; apply IH; done.
Qed.

(** On a fresh mask the transform leaves the per-row results in the
    leading bits, in row order, and the remaining bits clear. *)
Lemma write_from_fresh (rs : list bool) :
  forall (pre : list bool) (n : nat) (o : bool),
    (length pre + length rs <= n)%nat ->
    BitSet.bits (Column.write_from (length pre) rs
                   (BitSet.mk (pre ++ replicate (n - length pre) false) o))
    = pre ++ rs ++ replicate (n - length pre - length rs) false.
Proof.
  induction rs as [| r rs IH]; intros pre n o Hle; simpl in *.
  - by rewrite Nat.sub_0_r.
  - assert (Hsplit : replicate (n - length pre) false
                     = false :: replicate (n - length (pre ++ [r])) false).
    { rewrite length_app; simpl.
      replace (n - length pre)%nat with (S (n - (length pre + 1))) by lia. done. }
    assert (Hlen : length (pre ++ [r]) = S (length pre)).
    { rewrite length_app; simpl; lia. }
    destruct r.
    + unfold BitSet.set, BitSet.size; simpl.
      destruct (decide _) as [_ | Hge];
        [| rewrite length_app, length_replicate in Hge; lia].
      rewrite Hsplit.
      rewrite (insert_app_r_alt pre _ (length pre)) by reflexivity.
      rewrite Nat.sub_diag. simpl.
      rewrite (cons_middle true pre), app_assoc.
      rewrite <- Hlen, IH by lia.
      rewrite <- app_assoc, Hlen. simpl.
      by replace (n - S (length pre) - length rs)%nat
        with (n - length pre - S (length rs))%nat by lia.
    + rewrite Hsplit.
      rewrite (cons_middle false pre), app_assoc.
      rewrite <- Hlen, IH by lia.
      rewrite <- app_assoc, Hlen. simpl.
      by replace (n - S (length pre) - length rs)%nat
        with (n - length pre - S (length rs))%nat by lia.
Qed.

Lemma transform_fresh (rs : list bool) (n : nat) :
  (length rs <= n)%nat ->
  BitSet.bits (Column.write_from 0 rs (BitSet.make n))
  = rs ++ replicate (n - length rs) false.
Proof.
  intros Hle.
  pose proof (write_from_fresh rs [] n false) as Hw. simpl in Hw.
  rewrite Nat.sub_0_r in Hw. by apply Hw.
Qed.

Lemma BitSet_test_make (n m : nat) : BitSet.test (BitSet.make n) m = false.
Proof.
  unfold BitSet.test, BitSet.make; simpl.
  destruct (replicate n false !! m) as [x |] eqn:E; [| done].
  apply lookup_replicate in E as [-> _]. done.
Qed.

Lemma positions_from_ge (l : list bool) :
  forall (k x : nat), x ∈ BitSet.positions_from k l -> (k <= x)%nat.
Proof.
  induction l as [| b l IH]; intros k x Hin; simpl in Hin.
  - by apply not_elem_of_nil in Hin.
  - destruct b.
    + apply elem_of_cons in Hin as [-> | Hin]; [lia |].
      apply IH in Hin. lia.
    + apply IH in Hin. lia.
Qed.

Lemma positions_from_NoDup (l : list bool) :
  forall k : nat, NoDup (BitSet.positions_from k l).
Proof.
  induction l as [| b l IH]; intros k; simpl.
  - constructor.
  - destruct b; [| apply IH].
    constructor; [| apply IH].
    intros Hin. apply positions_from_ge in Hin. lia.
Qed.

(** The loop over the stored positions: each visited position receives
    the next bit of [out], every other bit of [replace] is kept. *)
Lemma sparse_loop_spec (out : BitSet.t) (its : list nat) :
  NoDup its ->
  forall (replace : BitSet.t) (pos : nat),
    let result :=
      fst (foldl (fun '(replace, pos) it =>
                    (BitSet.set replace it (BitSet.test out pos), S pos))
                 (replace, pos) its) in
    (forall k p, its !! k = Some p -> BitSet.test result p = BitSet.test out (pos + k))
    /\ (forall n, n ∉ its -> BitSet.test result n = BitSet.test replace n).
Proof.
  induction its as [| it its IH]; intros Hnd replace pos; simpl.
  - split; [intros k p Hk; by destruct k | done].
  - apply NoDup_cons in Hnd as [Hnotin Hnd].
    destruct (IH Hnd (BitSet.set replace it (BitSet.test out pos)) (S pos))
      as [IHin IHout].
    split.
    + intros [| k] p Hk; simpl in Hk.
      * injection Hk as <-. rewrite IHout by done.
        rewrite BitSet_test_set, Nat.add_0_r. by destruct (decide (it = it)).
      * rewrite (IHin k p Hk). f_equal. lia.
    + intros n Hn. apply not_elem_of_cons in Hn as [Hne Hn].
      rewrite IHout by done. rewrite BitSet_test_set.
      by destruct (decide (it = n)).
Qed.

Section Properties.

Context `{Externals}.

(** The local [replace] of the membership kernel is the scatter-back of
    the dense result. *)
Lemma sparse_replace_scattered (sparse_map output_bitset : BitSet.t) :
  scattered sparse_map output_bitset (sparse_replace sparse_map output_bitset).
Proof.
  unfold scattered, sparse_replace.
  destruct (sparse_loop_spec output_bitset (BitSet.positions sparse_map)
              (positions_from_NoDup _ 0)
              (BitSet.make (BitSet.size sparse_map)) 0%nat) as [Hin Hout].
  split.
  - intros k p Hk. by rewrite (Hin k p Hk).
  - intros n Hn. rewrite (Hout n Hn). apply BitSet_test_make.
Qed.

Lemma numeric_type_kind (dt : DataType) :
  is_numeric_type dt = true ->
  is_empty_type dt = false /\ is_sequence_type dt = false /\ is_bool_type dt = false.
Proof. by destruct dt. Qed.

(** What the membership kernel returns for numeric data and a non-empty
    set: the dense per-row results in the leading bits, whatever the
    sparse map. *)
Lemma binary_membership_numeric (c : ColumnWithStrings) (s : ValueSet)
    (func : MembershipOperator) :
  let column := column_ c in
  let col_type := Column.type column in
  let WideType := type_arithmetic_promoted_type col_type (base_type s) (Membership func) in
  let r :=
    map (fun input_value =>
           if needs_uint64_special_handling col_type (base_type s)
           then membership_call_uint64 func col_type (base_type s) input_value
                  (get_set s WideType)
           else membership_call func WideType
                  (static_cast WideType col_type input_value) (get_set s WideType))
        (Column.data column) in
  is_numeric_type col_type = true ->
  is_numeric_type (base_type s) = true ->
  ValueSet_empty s = false ->
  (length (Column.data column) <= Column.row_count column)%nat ->
  binary_membership c s func
  = Ok (VBitSet (BitSet.mk (r ++ replicate (Column.row_count column - length r) false) true)).
Proof.
  intros column col_type WideType r Hc Hs Hne Hlen.
  destruct (numeric_type_kind _ Hc) as (He & Hseq & Hb).
  unfold binary_membership, binary_membership_visit.
  fold column. fold col_type. rewrite He, Hne, Hseq, Hb, Hc, Hs. simpl.
  unfold Column.transform, BitSet.optimize. fold WideType. fold r.
  rewrite transform_fresh by (subst r; rewrite length_map; done).
  done.
Qed.

(** ** Membership *)

(** C1, at a well-formed sparse column that stores 5 and 7 at rows 1
    and 3 of four and the set holding 7: the dense results are
    [false; true] for is-in and [true; false] for is-not-in, and the
    kernel returns them in bits 0 and 1. Bit 3, the row that stores 7, is
    clear for is-in, and bit 0, a row that stores nothing, is set for
    is-not-in. The loop over the sparse map did compute the scattered
    mask, which is not the mask returned: the returned mask breaks the
    scatter-back rule. *)
Theorem binary_membership_sparse_returns_dense_bits :
  let sparse_map := BitSet.mk [false; true; false; true] false in
  let returned_is_in := BitSet.mk [false; true; false; false] true in
  let returned_is_not_in := BitSet.mk [true; false; false; false] true in
  Column.well_formed (column_ sparse_5_7)
  /\ Column.opt_sparse_map (column_ sparse_5_7) = Some sparse_map
  /\ @binary_membership Int64.externals sparse_5_7 (Int64.set_of [7]) IsInOperator
     = Ok (VBitSet returned_is_in)
  /\ @binary_membership Int64.externals sparse_5_7 (Int64.set_of [7]) IsNotInOperator
     = Ok (VBitSet returned_is_not_in)
  /\ BitSet.bits (sparse_replace sparse_map returned_is_in) = [false; false; false; true]
  /\ BitSet.bits (sparse_replace sparse_map returned_is_not_in)
     = [false; true; false; false]
  /\ ~ scattered sparse_map returned_is_in returned_is_in
  /\ ~ scattered sparse_map returned_is_not_in returned_is_not_in.
Proof.
  intros sparse_map returned_is_in returned_is_not_in.
  repeat split; try (by vm_compute).
  - intros [Hstored _]. specialize (Hstored 0%nat 1%nat eq_refl). discriminate Hstored.
  - intros [Hstored _]. specialize (Hstored 0%nat 1%nat eq_refl). discriminate Hstored.
Qed.

(** C2. For a column whose declared element type is the empty
    placeholder and any scalar set, the membership kernel returns the
    EmptyResult sentinel for is-in and the FullResult sentinel for
    is-not-in. *)
Theorem binary_membership_empty_type (c : ColumnWithStrings) (s : ValueSet) :
  is_empty_type (Column.type (column_ c)) = true ->
  binary_membership c s IsInOperator = Ok VEmptyResult
  /\ binary_membership c s IsNotInOperator = Ok VFullResult.
Proof. intros He. unfold binary_membership. by rewrite He. Qed.

(** C3. For a column that is not empty-typed and an empty scalar set,
    the membership kernel returns a materialized mask of the column's
    row count, all clear for is-in and all set for is-not-in. *)
Theorem binary_membership_empty_set (c : ColumnWithStrings) (s : ValueSet) :
  is_empty_type (Column.type (column_ c)) = false ->
  ValueSet_empty s = true ->
  binary_membership c s IsInOperator
  = Ok (VBitSet (BitSet.mk (replicate (Column.row_count (column_ c)) false) true))
  /\ binary_membership c s IsNotInOperator
     = Ok (VBitSet (BitSet.mk (replicate (Column.row_count (column_ c)) true) true)).
Proof.
  intros He Hs. unfold binary_membership. rewrite He, Hs. simpl.
  unfold BitSet.optimize, BitSet.set_all, BitSet.size; simpl.
  by rewrite length_replicate.
Qed.

(** C10. When the left operand of the membership wrapper is the
    EmptyResult variant, the result is EmptyResult for is-in and for
    is-not-in alike, whatever the right operand, and nothing is
    raised. *)
Theorem visit_binary_membership_EmptyResult (right : VariantData)
    (func : MembershipOperator) :
  visit_binary_membership VEmptyResult right func = Ok VEmptyResult.
Proof. reflexivity. Qed.

(** ** Comparison *)

Lemma well_formed_stored_rows (c : Column.t) :
  Column.well_formed c -> (length (Column.data c) <= Column.row_count c)%nat.
Proof.
  unfold Column.well_formed, BitSet.count, BitSet.size.
  destruct (Column.opt_sparse_map c) as [m |].
  - intros [<- ->]. apply length_filter.
  - intros ->. done.
Qed.

Lemma fresh_mask_written (rs : list bool) (n : nat) :
  (length rs <= n)%nat ->
  BitSet.size (Column.write_from 0 rs (BitSet.make n)) = n
  /\ BitSet.optimized (Column.write_from 0 rs (BitSet.make n)) = false.
Proof.
  intros Hle.
  assert (Hsize : BitSet.size (BitSet.make n) = n).
  { unfold BitSet.size, BitSet.make; simpl. apply length_replicate. }
  split.
  - rewrite write_from_size; [done | rewrite Hsize; simpl; lia].
  - by apply write_from_optimized.
Qed.

(** A scalar of the empty placeholder type against a column of another
    type reaches the final branch of the type dispatch. *)
Lemma binary_comparator_empty_scalar (arguments_reversed : bool)
    (c : ColumnWithStrings) (val : Value) (func : ComparisonOperator) :
  is_empty_type (Column.type (column_ c)) = false ->
  is_empty_type (data_type_ val) = true ->
  binary_comparator_column_value arguments_reversed c val func
  = Err (util_raise_rte "Cannot compare {} to {} (possible categorical?)").
Proof.
  intros Hc Hv. unfold binary_comparator_column_value. rewrite Hc.
  destruct (data_type_ val); try discriminate Hv.
  by rewrite !andb_false_r.
Qed.


(** C6, as the kernels have it. For two columns with different row
    counts: when neither is empty-typed, the comparison and the
    arithmetic operation both fail on the row-count check, in the kernel
    and through the wrapper; when one is empty-typed the guard on the
    empty type runs first, the comparison returns EmptyResult and the
    arithmetic operation fails on the schema check. *)
Theorem column_column_row_count_mismatch (cmp : ComparisonOperator)
    (arith : ArithmeticOperator) (left right : ColumnWithStrings) :
  Column.row_count (column_ left) ≠ Column.row_count (column_ right) ->
  if is_empty_type (Column.type (column_ left))
     || is_empty_type (Column.type (column_ right))
  then
    binary_comparator_column_column left right cmp = Ok VEmptyResult
    /\ binary_operator_column_column (column_ left) (column_ right) arith
       = Err (schema_check_E_UNSUPPORTED_COLUMN_TYPE "Empty column provided to binary operator")
  else
    binary_comparator_column_column left right cmp
    = Err (util_check "Columns with different row counts ({} and {}) in binary comparator")
    /\ visit_binary_comparator (VColumnWithStrings left) (VColumnWithStrings right) cmp
       = Err (util_check "Columns with different row counts ({} and {}) in binary comparator")
    /\ binary_operator_column_column (column_ left) (column_ right) arith
       = Err (util_check "Columns with different row counts ({} and {}) in binary operator")
    /\ visit_binary_operator (VColumnWithStrings left) (VColumnWithStrings right) arith
       = Err (util_check "Columns with different row counts ({} and {}) in binary operator").
Proof.
  intros Hrows.
  unfold visit_binary_operator, visit_binary_comparator,
    binary_comparator_column_column, binary_operator_column_column; simpl.
  rewrite negb_andb, !negb_involutive.
  destruct (is_empty_type (Column.type (column_ left))
            || is_empty_type (Column.type (column_ right))); [done |].
  rewrite bool_decide_eq_false_2 by done. done.
Qed.

(** C8. Two scalar operands are rejected by the comparator wrapper,
    whatever the operator: the call raises and returns neither a mask
    nor a sentinel. *)
Theorem visit_binary_comparator_two_values (l r : Value) (func : ComparisonOperator) :
  visit_binary_comparator (VValue l) (VValue r) func
  = Err (util_raise_rte "Two value inputs not accepted to binary comparators").
Proof. reflexivity. Qed.

(** C9, as the kernels have it. A mask returned by a comparison of a
    well-formed column has one bit per row of that column, and no
    compaction pass has run on it: the comparator kernels return the
    mask as the transform wrote it. *)
Theorem binary_comparator_mask_not_compacted (func : ComparisonOperator)
    (left right : ColumnWithStrings) (val : Value) (arguments_reversed : bool)
    (b : BitSet.t) :
  Column.well_formed (column_ left) ->
  binary_comparator_column_column left right func = Ok (VBitSet b)
  \/ binary_comparator_column_value arguments_reversed left val func = Ok (VBitSet b) ->
  BitSet.size b = Column.row_count (column_ left) /\ BitSet.optimized b = false.
Proof.
  intros Hwf%well_formed_stored_rows [Hres | Hres].
  - unfold binary_comparator_column_column, Column.transform2 in Hres.
    repeat case_match; simplify_eq/=;
      apply fresh_mask_written; rewrite length_zip_with; lia.
  - unfold binary_comparator_column_value, Column.transform in Hres.
    repeat case_match; simplify_eq/=;
      apply fresh_mask_written; by rewrite length_map.
Qed.

(** ** Arithmetic *)

(** An operand of the empty placeholder type makes the arithmetic
    wrapper raise, unless the other operand is the EmptyResult variant,
    which the wrapper answers before it looks at any type. *)
Lemma visit_binary_operator_empty_type (func : ArithmeticOperator)
    (left right : VariantData) :
  holds_EmptyResult left = false ->
  holds_EmptyResult right = false ->
  declared_type left = Some EMPTYVAL \/ declared_type right = Some EMPTYVAL ->
  exists e : Error, visit_binary_operator left right func = Err e.
Proof.
  intros Hl Hr Hempty.
  unfold visit_binary_operator. rewrite Hl, Hr. simpl.
  destruct left as [| bl | cl | vl | sl |], right as [| br | cr | vr | sr |];
    simpl in *; try discriminate; try (by eexists);
    unfold binary_operator_column_value, binary_operator_column_column,
      binary_operator_value_value;
    destruct Hempty as [Hempty | Hempty]; simplify_eq/=;
    try rewrite Hempty; simpl;
    repeat case_match; try (by eexists); simplify_eq/=.
Qed.

(** C5, as the wrapper has it. For every arithmetic operation and every
    pair of operands of which one has the empty placeholder as its
    declared element type: when the other operand is the EmptyResult
    variant the wrapper returns EmptyResult before it looks at any type;
    in every other case the call raises and returns no sentinel, column
    or scalar. *)
Theorem visit_binary_operator_empty_typed_operand (func : ArithmeticOperator)
    (left right : VariantData) :
  declared_type left = Some EMPTYVAL \/ declared_type right = Some EMPTYVAL ->
  if holds_EmptyResult left || holds_EmptyResult right
  then visit_binary_operator left right func = Ok VEmptyResult
  else exists e : Error, visit_binary_operator left right func = Err e.
Proof.
  intros Hempty.
  destruct (holds_EmptyResult left || holds_EmptyResult right) eqn:Hsentinel.
  - unfold visit_binary_operator. by rewrite Hsentinel.
  - apply orb_false_elim in Hsentinel as [Hl Hr].
    by apply visit_binary_operator_empty_type.
Qed.

(** C7. For two numeric scalars and any arithmetic operator, the
    wrapper and the kernel return a single scalar whose element type is
    the promoted type of the two operand types for that operator. *)
Theorem binary_operator_two_values (func : ArithmeticOperator) (l r : Value) :
  is_numeric_type (data_type_ l) = true ->
  is_numeric_type (data_type_ r) = true ->
  let promoted :=
    type_arithmetic_promoted_type (data_type_ l) (data_type_ r) (Arithmetic func) in
  let result :=
    mkValue promoted (func_apply func (data_type_ l) (data_type_ r) (data_ l) (data_ r)) "" in
  visit_binary_operator (VValue l) (VValue r) func = Ok (VValue result)
  /\ binary_operator_value_value l r func = Ok (VValue result).
Proof.
  intros Hl Hr. unfold visit_binary_operator, binary_operator_value_value; simpl.
  by rewrite Hl, Hr.
Qed.

End Properties.

(** * Concrete runs *)

(** ** Runs of the theorems above *)

Lemma binary_membership_empty_type_run :
  is_empty_type (Column.type (column_ (Int64.empty_column 3))) = true
  /\ (@binary_membership Int64.externals (Int64.empty_column 3) (Int64.set_of [1]) IsInOperator
      = Ok VEmptyResult
      /\ @binary_membership Int64.externals (Int64.empty_column 3) (Int64.set_of [1])
           IsNotInOperator
         = Ok VFullResult).
Proof.
  split; [reflexivity |].
  apply (@binary_membership_empty_type Int64.externals). reflexivity.
Defined.

(** The scenario of the string column a, b, c against the empty set. *)
Lemma binary_membership_empty_set_run :
  is_empty_type (Column.type (column_ column_abc)) = false
  /\ ValueSet_empty empty_string_set = true
  /\ (@binary_membership Int64.externals column_abc empty_string_set IsInOperator
      = Ok (VBitSet (BitSet.mk [false; false; false] true))
      /\ @binary_membership Int64.externals column_abc empty_string_set IsNotInOperator
         = Ok (VBitSet (BitSet.mk [true; true; true] true))).
Proof.
  split; [reflexivity |]. split; [vm_compute; reflexivity |].
  apply (@binary_membership_empty_set Int64.externals column_abc empty_string_set).
  - reflexivity.
  - vm_compute; reflexivity.
Defined.


Lemma column_column_row_count_mismatch_run :
  Column.row_count (column_ (Int64.dense [1; 2; 3]))
  ≠ Column.row_count (column_ (Int64.dense [1; 2]))
  /\ (@binary_comparator_column_column Int64.externals (Int64.dense [1; 2; 3])
        (Int64.dense [1; 2]) LessThanOperator
      = Err (util_check "Columns with different row counts ({} and {}) in binary comparator")
      /\ @visit_binary_comparator Int64.externals
           (VColumnWithStrings (Int64.dense [1; 2; 3]))
           (VColumnWithStrings (Int64.dense [1; 2])) LessThanOperator
         = Err (util_check "Columns with different row counts ({} and {}) in binary comparator")
      /\ @binary_operator_column_column Int64.externals (column_ (Int64.dense [1; 2; 3]))
           (column_ (Int64.dense [1; 2])) PlusOperator
         = Err (util_check "Columns with different row counts ({} and {}) in binary operator")
      /\ @visit_binary_operator Int64.externals
           (VColumnWithStrings (Int64.dense [1; 2; 3]))
           (VColumnWithStrings (Int64.dense [1; 2])) PlusOperator
         = Err (util_check "Columns with different row counts ({} and {}) in binary operator")).
Proof.
  split; [simpl; lia |].
  apply (@column_column_row_count_mismatch Int64.externals LessThanOperator PlusOperator
           (Int64.dense [1; 2; 3]) (Int64.dense [1; 2])).
  simpl; lia.
Defined.

Lemma binary_comparator_mask_not_compacted_run :
  Column.well_formed (column_ (Int64.dense [1; 2; 3]))
  /\ @binary_comparator_column_value Int64.externals false (Int64.dense [1; 2; 3])
       (Int64.scalar 2) GreaterThanOperator
     = Ok (VBitSet (BitSet.mk [false; false; true] false))
  /\ BitSet.size (BitSet.mk [false; false; true] false)
     = Column.row_count (column_ (Int64.dense [1; 2; 3]))
  /\ BitSet.optimized (BitSet.mk [false; false; true] false) = false.
Proof.
  split; [reflexivity |]. split; [vm_compute; reflexivity |].
  apply (@binary_comparator_mask_not_compacted Int64.externals GreaterThanOperator
           (Int64.dense [1; 2; 3]) (Int64.dense [1; 2; 3]) (Int64.scalar 2) false).
  - reflexivity.
  - right. vm_compute; reflexivity.
Defined.

Lemma visit_binary_operator_empty_typed_operand_run :
  declared_type (VColumnWithStrings (Int64.empty_column 3)) = Some EMPTYVAL
  /\ exists e : Error,
       @visit_binary_operator Int64.externals (VColumnWithStrings (Int64.empty_column 3))
         (VValue (Int64.scalar 1)) PlusOperator = Err e.
Proof.
  split; [reflexivity |].
  apply (@visit_binary_operator_empty_typed_operand Int64.externals PlusOperator
           (VColumnWithStrings (Int64.empty_column 3)) (VValue (Int64.scalar 1))).
  left. reflexivity.
Defined.

Lemma binary_operator_two_values_run :
  is_numeric_type (data_type_ (Int64.scalar 1)) = true
  /\ is_numeric_type (data_type_ (Int64.scalar 2)) = true
  /\ (@visit_binary_operator Int64.externals (VValue (Int64.scalar 1))
        (VValue (Int64.scalar 2)) PlusOperator
      = Ok (VValue (mkValue INT64 3 ""))
      /\ @binary_operator_value_value Int64.externals (Int64.scalar 1) (Int64.scalar 2)
           PlusOperator
         = Ok (VValue (mkValue INT64 3 ""))).
Proof.
  split; [reflexivity |]. split; [reflexivity |].
  apply (@binary_operator_two_values Int64.externals PlusOperator
           (Int64.scalar 1) (Int64.scalar 2)); reflexivity.
Defined.

(** The scenario of the integer column 1, 2, 3 plus the scalar 10. *)
Example binary_operator_column_plus_scalar :
  @visit_binary_operator Int64.externals (VColumnWithStrings (Int64.dense [1; 2; 3]))
    (VValue (Int64.scalar 10)) PlusOperator
  = Ok (VColumnWithStrings
          (mkColumnWithStrings (Column.mk INT64 3 [11; 12; 13] None) None)).
Proof. reflexivity. Qed.

(** ** Inputs at which a statement of the specification fails *)


(** An addition whose left operand is an empty-typed column and whose
    right operand is the EmptyResult variant returns the EmptyResult
    sentinel: nothing is raised. *)
Lemma arithmetic_empty_type_with_EmptyResult_returns :
  declared_type (VColumnWithStrings (Int64.empty_column 3)) = Some EMPTYVAL
  /\ @visit_binary_operator Int64.externals (VColumnWithStrings (Int64.empty_column 3))
       VEmptyResult PlusOperator
     = Ok VEmptyResult
  /\ ~ exists e : Error,
        @visit_binary_operator Int64.externals (VColumnWithStrings (Int64.empty_column 3))
          VEmptyResult PlusOperator = Err e.
Proof.
  split; [reflexivity |]. split; [reflexivity |].
  intros [e He]. discriminate He.
Qed.

(** A comparison of an empty-typed column of no rows with a column of
    three rows returns: the row counts differ and nothing is raised. *)
Lemma compare_row_count_mismatch_returns :
  Column.row_count (column_ (Int64.empty_column 0))
  ≠ Column.row_count (column_ (Int64.dense [1; 2; 3]))
  /\ @binary_comparator_column_column Int64.externals (Int64.empty_column 0)
       (Int64.dense [1; 2; 3]) EqualsOperator
     = Ok VEmptyResult
  /\ is_Err (@visit_binary_comparator Int64.externals
               (VColumnWithStrings (Int64.empty_column 0))
               (VColumnWithStrings (Int64.dense [1; 2; 3])) EqualsOperator)
     = false.
Proof. split; [simpl; lia | by vm_compute]. Qed.

(** The comparison of the column 1, 2, 3 with the scalar 2 under
    greater-than returns the mask false, false, true, on which no
    compaction pass has run. *)
Lemma compare_returns_uncompacted_mask :
  exists b : BitSet.t,
    @binary_comparator_column_value Int64.externals false (Int64.dense [1; 2; 3])
      (Int64.scalar 2) GreaterThanOperator
    = Ok (VBitSet b)
    /\ BitSet.bits b = [false; false; true]
    /\ BitSet.optimized b = false.
Proof. eexists. by vm_compute. Qed.

(** * Further properties of the kernels *)

Lemma positions_from_lt (l : list bool) :
  forall (k x : nat), x ∈ BitSet.positions_from k l -> (x < k + length l)%nat.
Proof.
  induction l as [| b l IH]; intros k x Hin; simpl in Hin.
  - by apply not_elem_of_nil in Hin.
  - simpl. destruct b.
    + apply elem_of_cons in Hin as [-> | Hin]; [lia |].
      apply IH in Hin. lia.
    + apply IH in Hin. lia.
Qed.

Lemma sparse_loop_size (out : BitSet.t) (its : list nat) :
  forall (replace : BitSet.t) (pos : nat),
    (forall it, it ∈ its -> (it < BitSet.size replace)%nat) ->
    BitSet.size (fst (foldl (fun '(replace, pos) it =>
                               (BitSet.set replace it (BitSet.test out pos), S pos))
                            (replace, pos) its))
    = BitSet.size replace.
Proof.
  induction its as [| it its IH]; intros replace pos Hlt; simpl; [done |].
  assert (Hit : (it < BitSet.size replace)%nat) by (apply Hlt; left).
  rewrite IH.
  - by apply BitSet_size_set_lt.
  - intros it' Hin. rewrite BitSet_size_set_lt by done. apply Hlt. by right.
Qed.

Lemma write_from_fresh_mask (rs : list bool) (n : nat) :
  (length rs <= n)%nat ->
  Column.write_from 0 rs (BitSet.make n) = mask_of n rs false.
Proof.
  intros Hle.
  pose proof (transform_fresh rs n Hle) as Hbits.
  pose proof (write_from_optimized rs 0 (BitSet.make n) eq_refl) as Hopt.
  destruct (Column.write_from 0 rs (BitSet.make n)) as [bits opt].
  simpl in *. by subst.
Qed.

Lemma mask_of_size (rows : nat) (rs : list bool) (o : bool) :
  (length rs <= rows)%nat -> BitSet.size (mask_of rows rs o) = rows.
Proof.
  intros Hle. unfold BitSet.size, mask_of; simpl.
  rewrite length_app, length_replicate. lia.
Qed.

Lemma mask_of_test (rows : nat) (rs : list bool) (o : bool) (k : nat) :
  BitSet.test (mask_of rows rs o) k = default false (rs !! k).
Proof.
  unfold BitSet.test, mask_of; simpl.
  destruct (decide (k < length rs)%nat) as [Hlt | Hge].
  - by rewrite lookup_app_l.
  - rewrite lookup_app_r by lia.
    rewrite (lookup_ge_None_2 rs k) by lia. simpl.
    destruct (replicate _ false !! _) as [x |] eqn:E; [| done].
    by apply lookup_replicate in E as [-> _].
Qed.

Lemma sequence_type_kind (dt : DataType) :
  is_sequence_type dt = true ->
  is_empty_type dt = false /\ is_numeric_type dt = false /\ is_bool_type dt = false.
Proof. by destruct dt. Qed.

Lemma bool_type_kind (dt : DataType) :
  is_bool_type dt = true ->
  is_empty_type dt = false /\ is_numeric_type dt = false /\ is_sequence_type dt = false.
Proof. by destruct dt. Qed.

Section KernelProperties.

Context `{Externals}.

(** ** The membership kernel *)

(** X1. The loop over the sparse map builds the scatter-back of the
    dense result: the bit at the k-th stored position is bit k of the
    dense result, every other bit is clear, and the vector built is as
    long as the sparse map. *)
Theorem sparse_loop_scatters_back (sparse_map output_bitset : BitSet.t) :
  scattered sparse_map output_bitset (sparse_replace sparse_map output_bitset)
  /\ BitSet.size (sparse_replace sparse_map output_bitset) = BitSet.size sparse_map.
Proof.
  split; [apply sparse_replace_scattered |].
  unfold sparse_replace. rewrite sparse_loop_size.
  - unfold BitSet.size, BitSet.make; simpl. apply length_replicate.
  - intros it Hin. apply positions_from_lt in Hin.
    unfold BitSet.size, BitSet.make in *; simpl. rewrite length_replicate. lia.
Qed.

(** What the kernel returns once the per-type body has produced the
    dense mask. *)
Lemma binary_membership_of_visit (c : ColumnWithStrings) (s : ValueSet)
    (func : MembershipOperator) :
  is_empty_type (Column.type (column_ c)) = false ->
  ValueSet_empty s = false ->
  binary_membership c s func
  = output_bitset ← binary_membership_visit c s func
                      (BitSet.make (Column.row_count (column_ c)));
    Ok (VBitSet (BitSet.optimize output_bitset)).
Proof.
  intros He Hs. unfold binary_membership. rewrite He, Hs.
  by destruct (binary_membership_visit _ _ _ _).
Qed.

(** X2. For numeric data and a non-empty numeric set, bit k of the
    returned mask is the membership test of the k-th stored value, the
    mask has one bit per row and is compacted; the sparse map plays no
    part. *)
Theorem binary_membership_numeric_rows (c : ColumnWithStrings) (s : ValueSet)
    (func : MembershipOperator) :
  let column := column_ c in
  is_numeric_type (Column.type column) = true ->
  is_numeric_type (base_type s) = true ->
  ValueSet_empty s = false ->
  (length (Column.data column) <= Column.row_count column)%nat ->
  binary_membership c s func
  = Ok (VBitSet (mask_of (Column.row_count column)
                   (map (membership_numeric_row func (Column.type column) (base_type s) s)
                      (Column.data column))
                   true)).
Proof.
  intros column Hc Hs Hne Hlen.
  by rewrite (binary_membership_numeric c s func Hc Hs Hne Hlen).
Qed.

(** X3. For string data and a non-empty string set, bit k of the
    returned mask tests the k-th stored offset against the offsets the
    pool gives for the set; a fixed-width column without a known width
    hands the pool a null set instead of raising. *)
Theorem binary_membership_string_rows (c : ColumnWithStrings) (s : ValueSet)
    (func : MembershipOperator) :
  let column := column_ c in
  is_sequence_type (Column.type column) = true ->
  is_sequence_type (base_type s) = true ->
  ValueSet_empty s = false ->
  (length (Column.data column) <= Column.row_count column)%nat ->
  binary_membership c s func
  = Ok (VBitSet (mask_of (Column.row_count column)
                   (map (fun offset =>
                           membership_call_offsets func offset (membership_offset_set c s))
                      (Column.data column))
                   true)).
Proof.
  intros column Hc Hs Hne Hlen.
  destruct (sequence_type_kind _ Hc) as (He & _ & _).
  rewrite binary_membership_of_visit by done.
  unfold binary_membership_visit. fold column. rewrite Hc, Hs. simpl.
  unfold Column.transform.
  rewrite write_from_fresh_mask by (by rewrite length_map).
  done.
Qed.

(** X4. The membership kernel fails exactly when the column is not
    empty-typed, the set is not empty, and the element types are neither
    both strings nor both numeric: an empty set is never type-checked. *)
Theorem binary_membership_fails_iff (c : ColumnWithStrings) (s : ValueSet)
    (func : MembershipOperator) :
  is_Err (binary_membership c s func)
  = negb (is_empty_type (Column.type (column_ c)))
    && negb (ValueSet_empty s)
    && negb (types_testable (Column.type (column_ c)) (base_type s)).
Proof.
  unfold binary_membership.
  destruct (is_empty_type (Column.type (column_ c))) eqn:He; [by destruct func |].
  destruct (ValueSet_empty s) eqn:Hs; [by destruct func |].
  unfold binary_membership_visit, types_testable. simpl.
  destruct (Column.type (column_ c)), (base_type s); try discriminate He; reflexivity.
Qed.

(** X5. With a non-empty set, a BOOL8 column against a BOOL8 set is
    rejected as not implemented, and any other pairing that is neither
    string/string nor numeric/numeric as a type mismatch. *)
Theorem binary_membership_type_errors (c : ColumnWithStrings) (s : ValueSet)
    (func : MembershipOperator) :
  is_empty_type (Column.type (column_ c)) = false ->
  ValueSet_empty s = false ->
  types_testable (Column.type (column_ c)) (base_type s) = false ->
  binary_membership c s func
  = if is_bool_type (Column.type (column_ c)) && is_bool_type (base_type s)
    then Err (util_raise_rte "Binary membership not implemented for bools")
    else Err (util_raise_rte
                "Cannot check membership of {} in set of {} (possible categorical?)").
Proof.
  intros He Hs Ht. rewrite binary_membership_of_visit by done.
  unfold binary_membership_visit, types_testable in *.
  apply orb_false_elim in Ht as [-> ->]. simpl.
  by destruct (is_bool_type _ && is_bool_type _).
Qed.

(** X6. Whenever the membership kernel returns for a column that is not
    empty-typed, it returns a mask with one bit per row on which the
    compaction pass has run. *)
Theorem binary_membership_returns_compacted_mask (c : ColumnWithStrings) (s : ValueSet)
    (func : MembershipOperator) (v : VariantData) :
  is_empty_type (Column.type (column_ c)) = false ->
  (length (Column.data (column_ c)) <= Column.row_count (column_ c))%nat ->
  binary_membership c s func = Ok v ->
  exists b : BitSet.t,
    v = VBitSet b
    /\ BitSet.size b = Column.row_count (column_ c)
    /\ BitSet.optimized b = true.
Proof.
  intros He Hlen Hres. unfold binary_membership in Hres. rewrite He in Hres.
  destruct (ValueSet_empty s).
  - simpl in Hres. injection Hres as <-. eexists; split; [done |]. split; [| done].
    unfold BitSet.optimize, BitSet.size, BitSet.set_all, BitSet.size, BitSet.make.
    destruct func; simpl; by rewrite ?length_replicate.
  - unfold binary_membership_visit, Column.transform in Hres.
    repeat case_match; simplify_eq/=;
      (eexists; split; [done |]; split; [| done]);
      unfold BitSet.optimize, BitSet.size; simpl;
      rewrite write_from_fresh_mask by (by rewrite length_map);
      apply mask_of_size; by rewrite length_map.
Qed.

(** X7. The membership wrapper raises its pairing error exactly when the
    left operand is not the EmptyResult variant and the operands are not
    a column and a scalar set; an EmptyResult on the right does not
    short-circuit. *)
Theorem visit_binary_membership_pairing (left right : VariantData)
    (func : MembershipOperator) :
  visit_binary_membership left right func
  = Err (util_raise_rte "Binary membership operations must be Column/ValueSet")
  <-> holds_EmptyResult left = false /\ is_column_and_value_set left right = false.
Proof.
  unfold visit_binary_membership. split.
  - intros Hres. destruct left, right; simpl in *; try done.
    exfalso.
    destruct (binary_membership c s func) as [v | e] eqn:Hk; simpl in Hres; [done |].
    injection Hres as ->.
    pose proof (binary_membership_fails_iff c s func) as Hf. rewrite Hk in Hf. simpl in Hf.
    symmetry in Hf. apply andb_true_iff in Hf as [Hf Ht].
    apply andb_true_iff in Hf as [He Hs].
    apply negb_true_iff in He, Hs, Ht.
    rewrite (binary_membership_type_errors c s func He Hs Ht) in Hk.
    by destruct (is_bool_type _ && is_bool_type _).
  - intros [Hl Hp]. by destruct left, right.
Qed.

(** ** The comparator kernels *)

Lemma comparable_values_kind (l r : DataType) :
  (is_numeric_type l && is_numeric_type r) || (is_bool_type l && is_bool_type r) = true ->
  is_empty_type l = false /\ is_empty_type r = false
  /\ is_sequence_type l && is_sequence_type r = false.
Proof. by destruct l, r. Qed.

(** X8. For two numeric (or two BOOL8) columns of equal row count, bit k
    of the mask compares the k-th stored values of the two columns, each
    cast to its side of the comparison type; the mask has one bit per
    row. *)
Theorem binary_comparator_columns_rows (left right : ColumnWithStrings)
    (func : ComparisonOperator) :
  let lc := column_ left in
  let rc := column_ right in
  (is_numeric_type (Column.type lc) && is_numeric_type (Column.type rc))
  || (is_bool_type (Column.type lc) && is_bool_type (Column.type rc)) = true ->
  Column.row_count lc = Column.row_count rc ->
  (length (Column.data lc) <= Column.row_count lc)%nat ->
  binary_comparator_column_column left right func
  = Ok (VBitSet (mask_of (Column.row_count lc)
                   (zip_with (comparator_numeric_row func (Column.type lc) (Column.type rc))
                      (Column.data lc) (Column.data rc))
                   false)).
Proof.
  intros lc rc Ht Hrows Hlen.
  destruct (comparable_values_kind _ _ Ht) as (Hl & Hr & Hseq).
  unfold binary_comparator_column_column. fold lc rc.
  rewrite Hl, Hr, Hseq, Ht, bool_decide_eq_true_2 by done. simpl.
  unfold Column.transform2.
  rewrite write_from_fresh_mask by (rewrite length_zip_with; lia).
  done.
Qed.

(** X9. For a numeric (or BOOL8) column and scalar, bit k of the mask
    compares the k-th stored value with the scalar, the scalar on the
    side the argument order says; the sparse map plays no part. *)
Theorem binary_comparator_value_rows (arguments_reversed : bool)
    (c : ColumnWithStrings) (val : Value) (func : ComparisonOperator) :
  let column := column_ c in
  (is_numeric_type (Column.type column) && is_numeric_type (data_type_ val))
  || (is_bool_type (Column.type column) && is_bool_type (data_type_ val)) = true ->
  (length (Column.data column) <= Column.row_count column)%nat ->
  binary_comparator_column_value arguments_reversed c val func
  = Ok (VBitSet (mask_of (Column.row_count column)
                   (map (comparator_value_row arguments_reversed func (Column.type column)
                           (data_type_ val) (data_ val))
                      (Column.data column))
                   false)).
Proof.
  intros column Ht Hlen.
  destruct (comparable_values_kind _ _ Ht) as (Hc & _ & Hseq).
  unfold binary_comparator_column_value. fold column.
  rewrite Hc, Hseq, Ht. simpl.
  unfold Column.transform.
  rewrite write_from_fresh_mask by (by rewrite length_map).
  unfold comparator_value_row. by destruct arguments_reversed.
Qed.

(** X10. For two string columns of equal row count, bit k of the mask
    compares the strings that each column's own pool holds at the k-th
    stored offsets, with trailing nulls stripped on both sides as soon
    as one of the columns is fixed-width. *)
Theorem binary_comparator_string_rows (left right : ColumnWithStrings)
    (func : ComparisonOperator) :
  let lc := column_ left in
  let rc := column_ right in
  is_sequence_type (Column.type lc) = true ->
  is_sequence_type (Column.type rc) = true ->
  Column.row_count lc = Column.row_count rc ->
  (length (Column.data lc) <= Column.row_count lc)%nat ->
  binary_comparator_column_column left right func
  = Ok (VBitSet (mask_of (Column.row_count lc)
                   (zip_with (comparator_string_row func left right)
                      (Column.data lc) (Column.data rc))
                   false)).
Proof.
  intros lc rc Hl Hr Hrows Hlen.
  destruct (sequence_type_kind _ Hl) as (Hel & _ & _).
  destruct (sequence_type_kind _ Hr) as (Her & _ & _).
  unfold binary_comparator_column_column. fold lc rc.
  rewrite Hel, Her, Hl, Hr, bool_decide_eq_true_2 by done. simpl.
  unfold Column.transform2.
  rewrite write_from_fresh_mask by (rewrite length_zip_with; lia).
  done.
Qed.

(** X11. When a string scalar meets a fixed-width column whose width is
    unknown, or cannot be transcoded to that width, nothing is raised:
    the rows are compared with the pool offset of the empty string. *)
Theorem binary_comparator_untranscodable_scalar (arguments_reversed : bool)
    (c : ColumnWithStrings) (val : Value) (func : ComparisonOperator) :
  let column := column_ c in
  is_fixed_string_type (Column.type column) = true ->
  is_sequence_type (data_type_ val) = true ->
  match get_fixed_width_string_size c with
  | Some width => ascii_to_padded_utf32 (str_data val) width
  | None => None
  end = None ->
  (length (Column.data column) <= Column.row_count column)%nat ->
  binary_comparator_column_value arguments_reversed c val func
  = Ok (VBitSet (mask_of (Column.row_count column)
                   (map (comparator_offset_row arguments_reversed func
                           (get_offset_for_column (string_pool_ c) "" column))
                      (Column.data column))
                   false)).
Proof.
  intros column Hf Hv Hnone Hlen.
  assert (Hseq : is_sequence_type (Column.type column) = true)
    by (by destruct (Column.type column)).
  destruct (sequence_type_kind _ Hseq) as (He & _ & _).
  unfold binary_comparator_column_value. fold column.
  rewrite He, Hseq, Hv, Hf. simpl.
  unfold Column.transform.
  rewrite write_from_fresh_mask by (by rewrite length_map).
  destruct (get_fixed_width_string_size c) as [width |]; [rewrite Hnone |]; done.
Qed.

(** X12. The Column/Column comparator fails exactly when neither column
    is empty-typed and the row counts differ or the types do not pair;
    the Column/Value comparator exactly when the column is not
    empty-typed and the types do not pair. *)
Theorem binary_comparator_fails_iff (left right : ColumnWithStrings) (val : Value)
    (arguments_reversed : bool) (func : ComparisonOperator) :
  let lt := Column.type (column_ left) in
  let rt := Column.type (column_ right) in
  is_Err (binary_comparator_column_column left right func)
  = negb (is_empty_type lt || is_empty_type rt)
    && (negb (bool_decide (Column.row_count (column_ left) = Column.row_count (column_ right)))
        || negb (types_comparable lt rt))
  /\ is_Err (binary_comparator_column_value arguments_reversed left val func)
     = negb (is_empty_type lt) && negb (types_comparable lt (data_type_ val)).
Proof.
  intros lt rt.
  unfold binary_comparator_column_column, binary_comparator_column_value, types_comparable.
  fold lt rt. split.
  - destruct (bool_decide _); destruct lt, rt; reflexivity.
  - destruct lt, (data_type_ val); reflexivity.
Qed.




(** ** The arithmetic kernels *)

Lemma binary_operator_errors (e : Error) (left right : Column.t) (l r : Value)
    (arguments_reversed : bool) (func : ArithmeticOperator) :
  binary_operator_column_column left right func = Err e
  \/ binary_operator_column_value arguments_reversed left r func = Err e
  \/ binary_operator_value_value l r func = Err e ->
  e = schema_check_E_UNSUPPORTED_COLUMN_TYPE "Empty column provided to binary operator"
  \/ e = util_check "Columns with different row counts ({} and {}) in binary operator"
  \/ e = util_raise_rte "Non-numeric type provided to binary operation: {}".
Proof.
  unfold binary_operator_column_column, binary_operator_column_value,
    binary_operator_value_value.
  intros [Hres | [Hres | Hres]]; repeat case_match; simplify_eq/=; auto.
Qed.

(** X14. The arithmetic wrapper raises its Bitset/ValueSet error exactly
    when neither operand is the EmptyResult variant and one of them is
    neither a column nor a scalar. *)
Theorem visit_binary_operator_shapes (left right : VariantData)
    (func : ArithmeticOperator) :
  visit_binary_operator left right func
  = Err (util_raise_rte "Bitset/ValueSet inputs not accepted to binary operators")
  <-> holds_EmptyResult left || holds_EmptyResult right = false
      /\ is_column_or_value left && is_column_or_value right = false.
Proof.
  unfold visit_binary_operator. split.
  - intros Hres. destruct left, right; simpl in *; try done; exfalso.
    + destruct (binary_operator_errors _ (column_ c) (column_ c0)
                  (mkValue EMPTYVAL 0 "") (mkValue EMPTYVAL 0 "") false func
                  (or_introl Hres)) as [? | [? | ?]]; done.
    + destruct (binary_operator_errors _ (column_ c) (column_ c) v v false func
                  (or_intror (or_introl Hres))) as [? | [? | ?]]; done.
    + destruct (binary_operator_errors _ (column_ c) (column_ c) v v true func
                  (or_intror (or_introl Hres))) as [? | [? | ?]]; done.
    + destruct (binary_operator_errors _ (Column.make EMPTYVAL 0) (Column.make EMPTYVAL 0)
                  v v0 false func (or_intror (or_intror Hres))) as [? | [? | ?]]; done.
  - intros [He Hs]. by destruct left, right.
Qed.

(** X15. The arithmetic kernels fail exactly when an operand type is not
    numeric or, for two columns, the row counts differ: an empty-typed
    or string or BOOL8 operand never yields a result. *)
Theorem binary_operator_fails_iff (left right : Column.t) (l r : Value)
    (arguments_reversed : bool) (func : ArithmeticOperator) :
  is_Err (binary_operator_column_column left right func)
  = negb (is_numeric_type (Column.type left) && is_numeric_type (Column.type right)
          && bool_decide (Column.row_count left = Column.row_count right))
  /\ is_Err (binary_operator_column_value arguments_reversed left r func)
     = negb (is_numeric_type (Column.type left) && is_numeric_type (data_type_ r))
  /\ is_Err (binary_operator_value_value l r func)
     = negb (is_numeric_type (data_type_ l) && is_numeric_type (data_type_ r)).
Proof.
  unfold binary_operator_column_column, binary_operator_column_value,
    binary_operator_value_value.
  repeat split.
  - destruct (bool_decide _); destruct (Column.type left), (Column.type right); reflexivity.
  - destruct arguments_reversed; destruct (Column.type left), (data_type_ r); reflexivity.
  - destruct (data_type_ l), (data_type_ r); reflexivity.
Qed.

(** X16. What the arithmetic wrapper returns when it returns: a column
    of the left column's row count for two columns, of the column's row
    count for a column and a scalar, a scalar for two scalars, each of
    the promoted type of the operand types in the order given, computed
    row by row with the operands in the order given; EmptyResult when an
    operand is EmptyResult. It returns no mask, set or FullResult. *)
Theorem visit_binary_operator_result (left right : VariantData)
    (func : ArithmeticOperator) (v : VariantData) :
  visit_binary_operator left right func = Ok v ->
  match left, right with
  | VColumnWithStrings l, VColumnWithStrings r =>
      let lt := Column.type (column_ l) in
      let rt := Column.type (column_ r) in
      v = VColumnWithStrings
            (mkColumnWithStrings
               (Column.mk (type_arithmetic_promoted_type lt rt (Arithmetic func))
                  (Column.row_count (column_ l))
                  (zip_with (func_apply func lt rt)
                     (Column.data (column_ l)) (Column.data (column_ r)))
                  None)
               None)
  | VColumnWithStrings l, VValue r =>
      let lt := Column.type (column_ l) in
      let rt := data_type_ r in
      v = VColumnWithStrings
            (mkColumnWithStrings
               (Column.mk (type_arithmetic_promoted_type lt rt (Arithmetic func))
                  (Column.row_count (column_ l))
                  (map (fun x => func_apply func lt rt x (data_ r)) (Column.data (column_ l)))
                  None)
               None)
  | VValue l, VColumnWithStrings r =>
      let lt := data_type_ l in
      let rt := Column.type (column_ r) in
      v = VColumnWithStrings
            (mkColumnWithStrings
               (Column.mk (type_arithmetic_promoted_type lt rt (Arithmetic func))
                  (Column.row_count (column_ r))
                  (map (fun x => func_apply func lt rt (data_ l) x) (Column.data (column_ r)))
                  None)
               None)
  | VValue l, VValue r =>
      v = VValue (mkValue
                    (type_arithmetic_promoted_type (data_type_ l) (data_type_ r)
                       (Arithmetic func))
                    (func_apply func (data_type_ l) (data_type_ r) (data_ l) (data_ r)) "")
  | _, _ => v = VEmptyResult
  end.
Proof.
  unfold visit_binary_operator, binary_operator_column_column,
    binary_operator_column_value, binary_operator_value_value.
  intros Hres.
  destruct left, right; simpl in *; repeat case_match; simplify_eq/=; done.
Qed.

(** X17. On dense, well-formed column operands the arithmetic wrapper
    returns a dense, well-formed column without a string pool. *)
Theorem visit_binary_operator_keeps_columns_well_formed (left right : VariantData)
    (func : ArithmeticOperator) (out : ColumnWithStrings) :
  dense_operand left ->
  dense_operand right ->
  visit_binary_operator left right func = Ok (VColumnWithStrings out) ->
  Column.well_formed (column_ out)
  /\ Column.opt_sparse_map (column_ out) = None
  /\ string_pool_ out = None.
Proof.
  intros Hl Hr Hres.
  pose proof (visit_binary_operator_result _ _ _ _ Hres) as Hv.
  assert (Hrows : forall l r, left = VColumnWithStrings l -> right = VColumnWithStrings r ->
                              Column.row_count (column_ l) = Column.row_count (column_ r)).
  { intros l r -> ->. clear Hv. unfold visit_binary_operator in Hres; simpl in Hres.
    unfold binary_operator_column_column in Hres.
    repeat case_match; simplify_eq/=.
    match goal with
    | Hd : negb (bool_decide _) = false |- _ =>
        apply negb_false_iff, bool_decide_eq_true in Hd; exact Hd
    end. }
  destruct left as [| | l | l | |], right as [| | r | r | |];
    simpl in Hl, Hr, Hv; try done; simplify_eq/=.
  - destruct Hl as [Hln Hlw], Hr as [Hrn Hrw].
    unfold Column.well_formed in *; simpl. rewrite Hln in Hlw. rewrite Hrn in Hrw.
    repeat split. rewrite length_zip_with.
    rewrite Hlw, Hrw, (Hrows l r eq_refl eq_refl). lia.
  - destruct Hl as [Hln Hlw].
    unfold Column.well_formed in *; simpl. rewrite Hln in Hlw.
    repeat split. by rewrite length_map.
  - destruct Hr as [Hrn Hrw].
    unfold Column.well_formed in *; simpl. rewrite Hrn in Hrw.
    repeat split. by rewrite length_map.
Qed.

(** X18. When the operator and the promotion do not depend on the
    operand order for the two types at hand, scalar-with-column and
    column-with-scalar give the same result: the reversed variant of the
    kernel only swaps the roles of the operands. *)
Theorem visit_binary_operator_swap (c : ColumnWithStrings) (val : Value)
    (func : ArithmeticOperator) :
  let ct := Column.type (column_ c) in
  let vt := data_type_ val in
  type_arithmetic_promoted_type vt ct (Arithmetic func)
  = type_arithmetic_promoted_type ct vt (Arithmetic func) ->
  (forall a b : Z, func_apply func vt ct a b = func_apply func ct vt b a) ->
  visit_binary_operator (VValue val) (VColumnWithStrings c) func
  = visit_binary_operator (VColumnWithStrings c) (VValue val) func.
Proof.
  intros ct vt Hp Hc.
  unfold visit_binary_operator, binary_operator_column_value; simpl.
  fold ct vt. rewrite Hp.
  repeat case_match; try done.
  unfold Column.transform_column; simpl.
  assert (Hm : map (fun x => func_apply func vt ct (data_ val) x) (Column.data (column_ c))
               = map (fun x => func_apply func ct vt x (data_ val)) (Column.data (column_ c)))
    by (apply map_ext; intros x; apply Hc).
  by rewrite Hm.
Qed.

(** X19. For a dense, well-formed numeric column and a non-empty numeric
    set, when is-not-in is the negation of is-in at the same wide type,
    the two masks are bitwise complements. *)
Theorem binary_membership_complement (c : ColumnWithStrings) (s : ValueSet) :
  let column := column_ c in
  let ct := Column.type column in
  let vt := base_type s in
  is_numeric_type ct = true ->
  is_numeric_type vt = true ->
  ValueSet_empty s = false ->
  length (Column.data column) = Column.row_count column ->
  (forall x, membership_numeric_row IsNotInOperator ct vt s x
             = negb (membership_numeric_row IsInOperator ct vt s x)) ->
  exists is_in is_not_in : BitSet.t,
    binary_membership c s IsInOperator = Ok (VBitSet is_in)
    /\ binary_membership c s IsNotInOperator = Ok (VBitSet is_not_in)
    /\ BitSet.bits is_not_in = map negb (BitSet.bits is_in).
Proof.
  intros column ct vt Hc Hs Hne Hlen Hneg.
  assert (Hle : (length (Column.data column) <= Column.row_count column)%nat) by lia.
  do 2 eexists.
  rewrite (binary_membership_numeric_rows c s IsInOperator Hc Hs Hne Hle).
  rewrite (binary_membership_numeric_rows c s IsNotInOperator Hc Hs Hne Hle).
  split; [done |]. split; [done |].
  unfold mask_of; simpl. fold column ct vt.
  rewrite !length_map, <- Hlen, Nat.sub_diag. simpl.
  rewrite !app_nil_r, <- list_fmap_compose.
  apply map_ext. intros x. apply Hneg.
Qed.

End KernelProperties.

(** ** Runs of the further properties *)

Lemma binary_membership_numeric_rows_run :
  is_numeric_type (Column.type (column_ sparse_5_7)) = true
  /\ is_numeric_type (base_type (Int64.set_of [7])) = true
  /\ ValueSet_empty (Int64.set_of [7]) = false
  /\ (length (Column.data (column_ sparse_5_7)) <= Column.row_count (column_ sparse_5_7))%nat
  /\ @binary_membership Int64.externals sparse_5_7 (Int64.set_of [7]) IsInOperator
     = Ok (VBitSet (mask_of 4 [false; true] true)).
Proof.
  split; [reflexivity |]. split; [reflexivity |]. split; [vm_compute; reflexivity |].
  split; [simpl; lia |].
  apply (@binary_membership_numeric_rows Int64.externals sparse_5_7 (Int64.set_of [7])
           IsInOperator).
  - reflexivity.
  - reflexivity.
  - vm_compute; reflexivity.
  - simpl; lia.
Defined.

Lemma binary_membership_string_rows_run :
  is_sequence_type (Column.type (column_ column_abc)) = true
  /\ is_sequence_type (base_type string_set_b) = true
  /\ ValueSet_empty string_set_b = false
  /\ (length (Column.data (column_ column_abc)) <= Column.row_count (column_ column_abc))%nat
  /\ @binary_membership Int64.externals column_abc string_set_b IsInOperator
     = Ok (VBitSet (mask_of 3
                      (map (fun offset =>
                              Int64.member IsInOperator offset
                                (@membership_offset_set Int64.externals column_abc
                                   string_set_b))
                         [0; 1; 2])
                      true)).
Proof.
  split; [reflexivity |]. split; [reflexivity |]. split; [vm_compute; reflexivity |].
  split; [simpl; lia |].
  apply (@binary_membership_string_rows Int64.externals column_abc string_set_b
           IsInOperator).
  - reflexivity.
  - reflexivity.
  - vm_compute; reflexivity.
  - simpl; lia.
Defined.

(** The string column a, b, c against the set holding b. *)
Example binary_membership_abc_in_b :
  @binary_membership Int64.externals column_abc string_set_b IsInOperator
  = Ok (VBitSet (BitSet.mk [false; true; false] true)).
Proof. by vm_compute. Qed.

Lemma binary_membership_type_errors_run :
  is_empty_type (Column.type (column_ bool_column)) = false
  /\ ValueSet_empty bool_set = false
  /\ types_testable (Column.type (column_ bool_column)) (base_type bool_set) = false
  /\ @binary_membership Int64.externals bool_column bool_set IsInOperator
     = Err (util_raise_rte "Binary membership not implemented for bools").
Proof.
  split; [reflexivity |]. split; [vm_compute; reflexivity |]. split; [reflexivity |].
  apply (@binary_membership_type_errors Int64.externals bool_column bool_set IsInOperator).
  - reflexivity.
  - vm_compute; reflexivity.
  - reflexivity.
Defined.

Lemma binary_membership_returns_compacted_mask_run :
  is_empty_type (Column.type (column_ (Int64.dense [5; 7]))) = false
  /\ le (length (Column.data (column_ (Int64.dense [5; 7]))))
        (Column.row_count (column_ (Int64.dense [5; 7])))
  /\ @binary_membership Int64.externals (Int64.dense [5; 7]) (Int64.set_of [7]) IsInOperator
     = Ok (VBitSet (BitSet.mk [false; true] true))
  /\ exists b : BitSet.t,
       VBitSet (BitSet.mk [false; true] true) = VBitSet b
       /\ BitSet.size b = Column.row_count (column_ (Int64.dense [5; 7]))
       /\ BitSet.optimized b = true.
Proof.
  split; [reflexivity |]. split; [simpl; lia |]. split; [vm_compute; reflexivity |].
  apply (@binary_membership_returns_compacted_mask Int64.externals (Int64.dense [5; 7])
           (Int64.set_of [7]) IsInOperator).
  - reflexivity.
  - simpl; lia.
  - vm_compute; reflexivity.
Defined.

Lemma binary_comparator_columns_rows_run :
  (is_numeric_type INT64 && is_numeric_type INT64) || (is_bool_type INT64 && is_bool_type INT64)
  = true
  /\ Column.row_count (column_ (Int64.dense [1; 2; 3]))
     = Column.row_count (column_ (Int64.dense [3; 2; 1]))
  /\ @binary_comparator_column_column Int64.externals (Int64.dense [1; 2; 3])
       (Int64.dense [3; 2; 1]) LessThanOperator
     = Ok (VBitSet (BitSet.mk [true; false; false] false)).
Proof.
  split; [reflexivity |]. split; [reflexivity |].
  apply (@binary_comparator_columns_rows Int64.externals (Int64.dense [1; 2; 3])
           (Int64.dense [3; 2; 1]) LessThanOperator).
  - reflexivity.
  - reflexivity.
  - simpl; lia.
Defined.

Lemma binary_comparator_value_rows_run :
  (is_numeric_type INT64 && is_numeric_type INT64) || (is_bool_type INT64 && is_bool_type INT64)
  = true
  /\ @binary_comparator_column_value Int64.externals true (Int64.dense [1; 2; 3])
       (Int64.scalar 2) LessThanOperator
     = Ok (VBitSet (BitSet.mk [false; false; true] false)).
Proof.
  split; [reflexivity |].
  apply (@binary_comparator_value_rows Int64.externals true (Int64.dense [1; 2; 3])
           (Int64.scalar 2) LessThanOperator).
  - reflexivity.
  - simpl; lia.
Defined.

Lemma binary_comparator_string_rows_run :
  is_sequence_type (Column.type (column_ column_abc)) = true
  /\ (length (Column.data (column_ column_abc)) <= Column.row_count (column_ column_abc))%nat
  /\ @binary_comparator_column_column Int64.externals column_abc column_abc EqualsOperator
     = Ok (VBitSet (mask_of 3
                      (zip_with (@comparator_string_row Int64.externals EqualsOperator
                                   column_abc column_abc)
                         [0; 1; 2] [0; 1; 2])
                      false)).
Proof.
  split; [reflexivity |]. split; [simpl; lia |].
  apply (@binary_comparator_string_rows Int64.externals column_abc column_abc EqualsOperator).
  - reflexivity.
  - reflexivity.
  - reflexivity.
  - simpl; lia.
Defined.

(** The fixed-width column holding ab and the empty string, compared
    with the scalar ab while its width is unknown: the row that matches
    is the one holding the empty string. *)
Lemma binary_comparator_untranscodable_scalar_run :
  is_fixed_string_type (Column.type (column_ fixed_column)) = true
  /\ is_sequence_type (data_type_ (string_scalar "ab")) = true
  /\ @get_fixed_width_string_size Int64.externals fixed_column = None
  /\ @binary_comparator_column_value Int64.externals false fixed_column (string_scalar "ab")
       EqualsOperator
     = Ok (VBitSet (mask_of 2
                      (map (@comparator_offset_row Int64.externals false EqualsOperator
                              (Int64.offset_of (string_pool_ fixed_column) ""
                                 (column_ fixed_column)))
                         [0; 1])
                      false)).
Proof.
  split; [reflexivity |]. split; [reflexivity |]. split; [reflexivity |].
  apply (@binary_comparator_untranscodable_scalar Int64.externals false fixed_column
           (string_scalar "ab") EqualsOperator).
  - reflexivity.
  - reflexivity.
  - reflexivity.
  - simpl; lia.
Defined.

Example binary_comparator_unknown_width_matches_empty_string :
  @binary_comparator_column_value Int64.externals false fixed_column (string_scalar "ab")
    EqualsOperator
  = Ok (VBitSet (BitSet.mk [false; true] false)).
Proof. by vm_compute. Qed.

Lemma visit_binary_operator_result_run :
  @visit_binary_operator Int64.externals (VValue (Int64.scalar 10))
    (VColumnWithStrings (Int64.dense [1; 2; 3])) MinusOperator
  = Ok (VColumnWithStrings
          (mkColumnWithStrings (Column.mk INT64 3 [9; 8; 7] None) None))
  /\ VColumnWithStrings (mkColumnWithStrings (Column.mk INT64 3 [9; 8; 7] None) None)
     = VColumnWithStrings
         (mkColumnWithStrings
            (Column.mk INT64 3 (map (fun x => 10 - x) [1; 2; 3]) None) None).
Proof.
  split; [reflexivity |].
  apply (@visit_binary_operator_result Int64.externals (VValue (Int64.scalar 10))
           (VColumnWithStrings (Int64.dense [1; 2; 3])) MinusOperator).
  reflexivity.
Defined.

Lemma visit_binary_operator_keeps_columns_well_formed_run :
  dense_operand (VColumnWithStrings (Int64.dense [1; 2; 3]))
  /\ dense_operand (VColumnWithStrings (Int64.dense [4; 5; 6]))
  /\ @visit_binary_operator Int64.externals (VColumnWithStrings (Int64.dense [1; 2; 3]))
       (VColumnWithStrings (Int64.dense [4; 5; 6])) TimesOperator
     = Ok (VColumnWithStrings (Int64.dense [4; 10; 18]))
  /\ (Column.well_formed (column_ (Int64.dense [4; 10; 18]))
      /\ Column.opt_sparse_map (column_ (Int64.dense [4; 10; 18])) = None
      /\ string_pool_ (Int64.dense [4; 10; 18]) = None).
Proof.
  split; [by vm_compute |]. split; [by vm_compute |]. split; [reflexivity |].
  apply (@visit_binary_operator_keeps_columns_well_formed Int64.externals
           (VColumnWithStrings (Int64.dense [1; 2; 3]))
           (VColumnWithStrings (Int64.dense [4; 5; 6])) TimesOperator).
  - by vm_compute.
  - by vm_compute.
  - reflexivity.
Defined.

Lemma visit_binary_operator_swap_run :
  (forall a b : Z, Int64.apply PlusOperator a b = Int64.apply PlusOperator b a)
  /\ @visit_binary_operator Int64.externals (VValue (Int64.scalar 10))
       (VColumnWithStrings (Int64.dense [1; 2; 3])) PlusOperator
     = @visit_binary_operator Int64.externals (VColumnWithStrings (Int64.dense [1; 2; 3]))
         (VValue (Int64.scalar 10)) PlusOperator.
Proof.
  split; [intros a b; unfold Int64.apply, Int64.wrap; f_equal; f_equal; lia |].
  apply (@visit_binary_operator_swap Int64.externals (Int64.dense [1; 2; 3])
           (Int64.scalar 10) PlusOperator).
  - reflexivity.
  - intros a b. change (Int64.apply PlusOperator a b = Int64.apply PlusOperator b a).
    unfold Int64.apply, Int64.wrap; f_equal; f_equal; lia.
Defined.

Lemma binary_membership_complement_run :
  length (Column.data (column_ (Int64.dense [5; 7])))
  = Column.row_count (column_ (Int64.dense [5; 7]))
  /\ ValueSet_empty (Int64.set_of [7]) = false
  /\ exists is_in is_not_in : BitSet.t,
       @binary_membership Int64.externals (Int64.dense [5; 7]) (Int64.set_of [7]) IsInOperator
       = Ok (VBitSet is_in)
       /\ @binary_membership Int64.externals (Int64.dense [5; 7]) (Int64.set_of [7])
            IsNotInOperator
          = Ok (VBitSet is_not_in)
       /\ BitSet.bits is_not_in = map negb (BitSet.bits is_in).
Proof.
  split; [reflexivity |]. split; [vm_compute; reflexivity |].
  apply (@binary_membership_complement Int64.externals (Int64.dense [5; 7])
           (Int64.set_of [7])).
  - reflexivity.
  - reflexivity.
  - vm_compute; reflexivity.
  - reflexivity.
  - intros x. reflexivity.
Defined.
